(** * Iron-carbon phase solver: the [ThermoEngine] object of [src/App.jsx]

    A shallow embedding of the boundary curves, [getState] and
    [predictProperties], and the properties of the specification proved
    (or refuted) on that embedding.

    Number model.  A JavaScript number is modelled as a real number:
    [+ - * /] are the field operations, [Math.max], [Math.min], [Math.abs]
    and [Math.exp] are [Rmax], [Rmin], [Rabs] and [exp], and [Math.pow] is
    [Math_pow] below.  Rounding error, [NaN] and the infinities of IEEE-754
    are outside the model: every statement is about the exact arithmetic
    the code approximates, on finite inputs. *)

From Stdlib Require Import Reals Lra Lia ZArith Bool String List.
Import ListNotations.

Open Scope string_scope.
Open Scope R_scope.

(** ** JavaScript primitives used by the engine *)

Module JS.

(** Comparisons, as the booleans a JavaScript condition tests. *)
Definition ltb (x y : R) : bool := if Rlt_dec x y then true else false.
Definition leb (x y : R) : bool := if Rle_dec x y then true else false.
Definition gtb (x y : R) : bool := ltb y x.
Definition geb (x y : R) : bool := leb y x.

(** [Math.pow(x, y)] on the arguments the engine passes: a base [x >= 0]
    and a constant exponent [y > 0].  JavaScript gives [0] at base [0]
    (where [Rpower], being [exp (y * ln x)], would give [1]). *)
Definition Math_pow (x y : R) : R :=
  if Req_dec_T x 0 then 0 else Rpower x y.

(** [Math.round(x)]: the nearest integer, halves rounded up. *)
Definition Math_round (x : R) : Z := Int_part (x + / 2).

(** [s.includes(sub)]. *)
Fixpoint includes (s sub : string) : bool :=
  String.prefix sub s ||
  match s with
  | EmptyString => false
  | String _ s' => includes s' sub
  end.

(** [xs.find(p)]. *)
Definition find {A : Type} (p : A -> bool) (xs : list A) : option A :=
  List.find p xs.

End JS.

Infix "<?" := JS.ltb (at level 70, no associativity) : R_scope.
Infix "<=?" := JS.leb (at level 70, no associativity) : R_scope.
Infix ">?" := JS.gtb (at level 70, no associativity) : R_scope.
Infix ">=?" := JS.geb (at level 70, no associativity) : R_scope.

(** ** Data model *)

(** One entry of the [fractions] array: [{ name, frac, pos }]. *)
Record PhaseFraction : Type := mkPhaseFraction {
  name : string;
  frac : R;
  pos : R
}.

(** What [predictProperties] returns. *)
Record Properties : Type := mkProperties {
  micro : string;
  crystal : string;
  yield : Z;
  uts : Z;
  hardness : Z;
  elong : Z
}.

(** What [getState] returns.  The object literal spreads the result of
    [predictProperties] into the state; here it is the field [properties]. *)
Record ThermodynamicState : Type := mkState {
  regionId : string;
  regionLabel : string;
  fractions : list PhaseFraction;
  isQuenched : bool;
  msTemp : option R;
  properties : Properties
}.

(** The three [let] variables of [getState] that the closures [lever] and
    [single] assign: each closure sets [regionId] and [phases] and returns
    the array that the caller stores in [fractions]. *)
Record Locals : Type := mkLocals {
  loc_regionId : string;
  loc_phases : list string;
  loc_fractions : list PhaseFraction
}.

(** ** The engine *)

Module ThermoEngine.

Import JS.

Definition EPS : R := 1e-5.

(** *** Analytical phase boundary equations c = f(T) *)

Definition c_alpha (T : R) : R :=
  if T >? 912 then 0
  else if T >=? 727 then 0.022 * ((912 - T) / 185)
  else 0.022 * Math_pow (Rmax 0 T / 727) 3.

Definition c_a3 (T : R) : R :=
  if (T >? 912) || (T <? 727) then 0.76
  else 0.76 * Math_pow ((912 - T) / 185) 1.2.

Definition c_acm (T : R) : R :=
  if T <? 727 then 0.76
  else if T >? 1147 then 2.11
  else 0.76 + (2.11 - 0.76) * Math_pow ((T - 727) / 420) 1.4.

Definition c_solidus (T : R) : R :=
  if T <? 1147 then 2.11
  else if T >? 1495 then 0.17
  else 0.17 + (2.11 - 0.17) * Math_pow ((1495 - T) / 348) 0.85.

Definition c_liquidus (T : R) : R :=
  if T <? 1147 then 4.3
  else if T >? 1495 then 0.53
  else 0.53 + (4.3 - 0.53) * Math_pow ((1495 - T) / 348) 0.85.

Definition c_l_fe3c (T : R) : R :=
  if T <? 1147 then 4.3
  else 4.3 + (6.67 - 4.3) * ((T - 1147) / 103).

Definition c_delta_solidus (T : R) : R :=
  if (T <? 1394) || (T >? 1538) then 0
  else if T >=? 1495 then 0.09 * ((1538 - T) / 43)
  else 0.09 * ((T - 1394) / 101).

Definition c_delta_liquidus (T : R) : R :=
  if (T <? 1495) || (T >? 1538) then 0
  else 0.53 * ((1538 - T) / 43).

(** *** The closures of [getState] *)

(** [lever(id, name1, name2, c1, c2)], closed over [safeC]. *)
Definition lever (safeC : R) (id name1 name2 : string) (c1 c2 : R)
  : Locals :=
  let span := c2 - c1 in
  mkLocals id [name1; name2]
    (if span <? EPS then [mkPhaseFraction name1 100 c1]
     else
       let w2 := ((safeC - c1) / span) * 100 in
       let w1 := 100 - w2 in
       [ mkPhaseFraction name1 (Rmax 0 (Rmin 100 w1)) c1;
         mkPhaseFraction name2 (Rmax 0 (Rmin 100 w2)) c2 ]).

(** [lever] again, with the division of its weight taken as a parameter
    [div], to state which divisions the closure depends on. *)
Definition lever_with (div : R -> R -> R) (safeC : R)
           (id name1 name2 : string) (c1 c2 : R) : Locals :=
  let span := c2 - c1 in
  mkLocals id [name1; name2]
    (if span <? EPS then [mkPhaseFraction name1 100 c1]
     else
       let w2 := (div (safeC - c1) span) * 100 in
       let w1 := 100 - w2 in
       [ mkPhaseFraction name1 (Rmax 0 (Rmin 100 w1)) c1;
         mkPhaseFraction name2 (Rmax 0 (Rmin 100 w2)) c2 ]).

(** [single(id, name)], closed over [safeC]. *)
Definition single (safeC : R) (id name : string) : Locals :=
  mkLocals id [name] [mkPhaseFraction name 100 safeC].

(** The region tree of [getState] (the cascade on [safeT], then on
    [safeC]); the result is the value of the three locals after it. *)
Definition classify (safeC safeT : R) : Locals :=
  if safeT >=? 1394 then
    if safeT >=? 1538 then single safeC "L" "Liquid"
    else if safeT >=? 1495 then
      let cd_s := c_delta_solidus safeT in
      let cd_l := c_delta_liquidus safeT in
      if safeC <=? cd_s then single safeC "delta" "Delta Ferrite (δ)"
      else if (safeC >? cd_s) && (safeC <? cd_l) then
        lever safeC "delta_L" "Delta Ferrite (δ)" "Liquid" cd_s cd_l
      else single safeC "L" "Liquid"
    else
      let cd_s := c_delta_solidus safeT in
      let c_perit_gamma := 0.17 * ((safeT - 1394) / 101) in
      let c_sol := c_solidus safeT in
      let c_liq := c_liquidus safeT in
      if safeC <=? cd_s then single safeC "delta" "Delta Ferrite (δ)"
      else if (safeC >? cd_s) && (safeC <? c_perit_gamma) then
        lever safeC "delta_gamma" "Delta Ferrite (δ)" "Austenite (γ)"
          cd_s c_perit_gamma
      else if (safeC >=? c_perit_gamma) && (safeC <=? c_sol) then
        single safeC "gamma" "Austenite (γ)"
      else if (safeC >? c_sol) && (safeC <? c_liq) then
        lever safeC "gamma_L" "Austenite (γ)" "Liquid" c_sol c_liq
      else if (safeC >=? c_liq) && (safeC <=? c_l_fe3c safeT) then
        single safeC "L" "Liquid"
      else
        lever safeC "L_Fe3C" "Liquid" "Cementite (Fe₃C)"
          (c_l_fe3c safeT) 6.67
  else if safeT >? 1147 then
    let c_sol := c_solidus safeT in
    let c_liq := c_liquidus safeT in
    let c_lf := c_l_fe3c safeT in
    if safeC <=? c_sol then single safeC "gamma" "Austenite (γ)"
    else if (safeC >? c_sol) && (safeC <? c_liq) then
      lever safeC "gamma_L" "Austenite (γ)" "Liquid" c_sol c_liq
    else if (safeC >=? c_liq) && (safeC <=? c_lf) then
      single safeC "L" "Liquid"
    else lever safeC "L_Fe3C" "Liquid" "Cementite (Fe₃C)" c_lf 6.67
  else if safeT >? 727 then
    let c_a3_val := c_a3 safeT in
    let c_acm_val := c_acm safeT in
    let c_al := c_alpha safeT in
    if safeC <=? c_al then single safeC "alpha" "Ferrite (α)"
    else if (safeC >? c_al) && (safeC <=? c_a3_val) then
      lever safeC "alpha_gamma" "Ferrite (α)" "Austenite (γ)" c_al c_a3_val
    else if (safeC >? c_a3_val) && (safeC <=? c_acm_val) then
      single safeC "gamma" "Austenite (γ)"
    else
      lever safeC "gamma_Fe3C" "Austenite (γ)" "Cementite (Fe₃C)"
        c_acm_val 6.67
  else
    let c_al := c_alpha safeT in
    if safeC <=? c_al then single safeC "alpha" "Ferrite (α)"
    else lever safeC "alpha_Fe3C" "Ferrite (α)" "Cementite (Fe₃C)" c_al 6.67.

(** [fractions.reduce((sum, f) => sum + f.frac, 0)]. *)
Definition total_frac (fs : list PhaseFraction) : R :=
  fold_left (fun sum f => sum + frac f) fs 0.

(** The renormalisation step: [forEach] rewrites [frac] in place when the
    total is off by more than [EPS]. *)
Definition renormalize (fs : list PhaseFraction) : list PhaseFraction :=
  let total := total_frac fs in
  if Rabs (total - 100) >? EPS then
    map (fun f => mkPhaseFraction (name f) ((frac f / total) * 100) (pos f))
        fs
  else fs.

(** The cascade that derives [regionLabel]. *)
Definition label_of (isQuenched : bool) (regionId : string) (safeC : R)
  : string :=
  if isQuenched then "Martensitic (Quenched)"
  else if String.eqb regionId "L" then "Liquid Melt"
  else if String.eqb regionId "gamma" then "Austenite Field (γ)"
  else if String.eqb regionId "alpha" then "Ferrite Field (α)"
  else if String.eqb regionId "delta" then "Delta Ferrite (δ)"
  else if String.eqb regionId "gamma_L" then "Mushy Zone (L + γ)"
  else if String.eqb regionId "delta_L" then "Mushy Zone (L + δ)"
  else if String.eqb regionId "delta_gamma" then "Two-Phase (δ + γ)"
  else if String.eqb regionId "alpha_gamma" then "Intercritical (α + γ)"
  else if String.eqb regionId "gamma_Fe3C" then
    if safeC <? 2.11 then "Austenite + Cementite"
    else "Austenite + Ledeburite"
  else if String.eqb regionId "alpha_Fe3C" then
    if safeC <? 0.76 then "Hypoeutectoid (α + P)"
    else if Rabs (safeC - 0.76) <? 0.02 then "Eutectoid (Pearlite)"
    else if safeC <=? 2.11 then "Hypereutectoid (P + Fe₃C)"
    else "Cast Iron (White)"
  else if String.eqb regionId "L_Fe3C" then "Liquid + Cementite"
  else "Unknown Region".

(** [fractions.find(f => f.name.includes(key))?.frac / 100 || 0]: the
    fraction of the first phase whose name contains [key], as a share of
    one; [0] when there is none ([undefined / 100] is [NaN], which [||]
    replaces by [0], as it does a zero share). *)
Definition share_of (key : string) (fs : list PhaseFraction) : R :=
  match JS.find (fun f => includes (name f) key) fs with
  | Some f => frac f / 100
  | None => 0
  end.

Definition predictProperties (c T : R) (fractions : list PhaseFraction)
           (isQuenched : bool) : Properties :=
  if T >? 1495 then
    mkProperties "Uniform Liquid" "Amorphous" 0 0 0 100
  else if isQuenched then
    let micro := if c <? 0.6 then "Lath Martensite"
                 else "Plate Martensite" in
    let crystal := "Body-Centered Tetragonal (BCT)" in
    let yieldStr := 1000 + 2000 * c in
    let hardness := 300 + 500 * c in
    let uts := yieldStr * 1.1 + hardness * 0.4 in
    let elong := Rmax 1 (15 - c * 15) in
    mkProperties micro crystal (Math_round yieldStr) (Math_round uts)
                 (Math_round hardness) (Math_round elong)
  else if T >? 727 then
    mkProperties "Austenitic / High Temp phases" "FCC Dominant"
                 (Math_round 50) (Math_round 120) (Math_round 40)
                 (Math_round 45)
  else
    let fAlpha := share_of "Ferrite" fractions in
    let fFe3C := share_of "Cementite" fractions in
    let crystal := "BCC + Orthorhombic" in
    let yieldStr := fAlpha * 150 + fFe3C * 1200 in
    let hardness := fAlpha * 80 + fFe3C * 800 in
    let uts := yieldStr * 1.35 + hardness * 0.5 in
    let elong := Rmax 1 (fAlpha * 40 + fFe3C * 2) in
    let micro :=
      if c <? 0.02 then "Equiaxed Ferrite"
      else if Rabs (c - 0.76) <? 0.02 then "100% Pearlite (Lamellar)"
      else if c <? 0.76 then "Proeutectoid Ferrite + Pearlite"
      else if c <=? 2.11 then "Proeutectoid Cementite Network + Pearlite"
      else if Rabs (c - 4.3) <? 0.05 then "Ledeburite (Eutectic)"
      else "Primary Cementite + Transformed Ledeburite" in
    mkProperties micro crystal (Math_round yieldStr) (Math_round uts)
                 (Math_round hardness) (Math_round elong).

(** The quench test of [getState]. *)
Definition quench_test (rate safeC safeT msTemp : R) : bool :=
  (rate >=? 50) && (safeC <? 2.0) && (safeT <? msTemp).

(** *** True thermodynamic state solver *)
Definition getState (c T rate : R) : ThermodynamicState :=
  let safeC := Rmax 0 (Rmin 6.67 c) in
  let safeT := Rmax 0 T in
  let loc := classify safeC safeT in
  let fractions := renormalize (loc_fractions loc) in
  let msTemp := 539 - 423 * safeC in
  let isQuenched := quench_test rate safeC safeT msTemp in
  let regionId := if isQuenched then "martensite" else loc_regionId loc in
  let fractions :=
    if isQuenched then
      let fm := 1 - exp (- 0.011 * (msTemp - safeT)) in
      let fm := Rmax 0 (Rmin 1 fm) in
      [ mkPhaseFraction "Martensite (BCT)" (fm * 100) safeC;
        mkPhaseFraction "Retained Austenite" ((1 - fm) * 100) safeC ]
    else fractions in
  let regionLabel := label_of isQuenched regionId safeC in
  mkState regionId regionLabel fractions isQuenched
          (if safeC <? 2.0 then Some msTemp else None)
          (predictProperties safeC safeT fractions isQuenched).

End ThermoEngine.

(** ** Vocabulary of the properties *)

Module Spec.

Import JS ThermoEngine.

(** Two numbers agree within [eps]. *)
Definition within (eps a b : R) : Prop := Rabs (a - b) <= eps.

(** The identifiers that [lever] and [single] are called with. *)
Definition equilibrium_ids : list string :=
  [ "L"; "delta"; "delta_L"; "delta_gamma"; "gamma"; "gamma_L"; "L_Fe3C";
    "alpha"; "alpha_gamma"; "gamma_Fe3C"; "alpha_Fe3C" ].

(** Every leaf of the region tree is a call of [single] or [lever]. *)
Inductive leaf (safeC : R) : Locals -> Prop :=
| leaf_single id nm : leaf safeC (single safeC id nm)
| leaf_lever id n1 n2 c1 c2 : leaf safeC (lever safeC id n1 n2 c1 c2).

(** The input clamps of [getState]. *)
Definition safeC_of (c : R) : R := Rmax 0 (Rmin 6.67 c).
Definition safeT_of (T : R) : R := Rmax 0 T.

(** The martensite-start temperature and the transformed fraction that
    the quench branch computes. *)
Definition Ms (safeC : R) : R := 539 - 423 * safeC.
Definition fm_of (safeC safeT : R) : R :=
  Rmax 0 (Rmin 1 (1 - exp (- 0.011 * (Ms safeC - safeT)))).

End Spec.

(** ** Derived quantities *)

Module Derived.

Import JS ThermoEngine.

(** The carbon that an array of fractions accounts for: each phase's share
    times the carbon content [pos] of that phase. *)
Definition carbon_of (fs : list PhaseFraction) : R :=
  fold_left (fun sum f => sum + frac f * pos f) fs 0.

(** The [frac] of the first entry of an array ([fractions[0].frac]). *)
Definition first_frac (fs : list PhaseFraction) : R :=
  match fs with
  | f :: _ => frac f
  | [] => 0
  end.

(** A leaf of the region tree whose tie line, if it has one, holds the
    bulk carbon. *)
Inductive tie_leaf (safeC : R) : Locals -> Prop :=
| tie_single id nm : tie_leaf safeC (single safeC id nm)
| tie_lever id n1 n2 c1 c2 :
    c1 <= safeC <= c2 -> tie_leaf safeC (lever safeC id n1 n2 c1 c2).

(** The name of the single phase of a carbon-free alloy at [safeT]. *)
Definition iron_phase (safeT : R) : string :=
  if safeT >=? 1538 then "Liquid"
  else if safeT >=? 1394 then "Delta Ferrite (δ)"
  else if safeT >? 1147 then "Austenite (γ)"
  else "Ferrite (α)".

(** A leaf of the region tree whose tie line, if it has one, holds the
    bulk carbon and lies on the carbon axis. *)
Inductive axis_leaf (safeC : R) : Locals -> Prop :=
| axis_single id nm : axis_leaf safeC (single safeC id nm)
| axis_lever id n1 n2 c1 c2 :
    0 <= c1 <= safeC -> safeC <= c2 <= 6.67 ->
    axis_leaf safeC (lever safeC id n1 n2 c1 c2).

(** The regions that the equilibrium tree can reach at [safeT]. *)
Definition band_regions (safeT : R) : list string :=
  if safeT >=? 1538 then ["L"]
  else if safeT >=? 1495 then ["delta"; "delta_L"; "L"]
  else if safeT >=? 1394 then ["delta"; "delta_gamma"; "gamma"; "gamma_L"; "L"]
  else if safeT >=? 1250 then ["gamma"; "gamma_L"; "L"]
  else if safeT >? 1147 then ["gamma"; "gamma_L"; "L"; "L_Fe3C"]
  else if safeT >? 727 then ["alpha"; "alpha_gamma"; "gamma"; "gamma_Fe3C"]
  else ["alpha"; "alpha_Fe3C"].

End Derived.

(** ** The application around the engine: the [App] component *)

Module App.

Import JS ThermoEngine.

(** What [getWeldability] returns. *)
Record Weldability : Type := mkWeldability {
  rating : string;
  desc : string;
  color : string;
  bg : string
}.

Definition getWeldability (c : R) : Weldability :=
  if c <=? 0.25 then
    mkWeldability "Excellent" "No pre-heat needed" "text-emerald-500"
                  "bg-emerald-500/10 border-emerald-500/20"
  else if c <=? 0.50 then
    mkWeldability "Fair" "Pre-heat required" "text-amber-500"
                  "bg-amber-500/10 border-amber-500/20"
  else if c <=? 2.11 then
    mkWeldability "Poor" "Special techniques" "text-rose-500"
                  "bg-rose-500/10 border-rose-500/20"
  else
    mkWeldability "Unweldable" "Cast Iron territory" "text-red-600"
                  "bg-red-600/10 border-red-600/20".

(** *** Diagram layout *)

Definition svgW : R := 850.
Definition svgH : R := 650.
Definition margin_top : R := 40.
Definition margin_right : R := 60.
Definition margin_bottom : R := 80.
Definition margin_left : R := 70.
Definition innerW : R := svgW - margin_left - margin_right.
Definition innerH : R := svgH - margin_top - margin_bottom.
Definition maxC (zoomSteel : bool) : R := if zoomSteel then 2.5 else 6.67.

Definition mapX (zoomSteel : bool) (c : R) : R :=
  margin_left + (Rmin c (maxC zoomSteel) / maxC zoomSteel) * innerW.

Definition mapY (t : R) : R :=
  margin_top + innerH - (t / 1600) * innerH.

(** [getBoundingClientRect()] of the diagram, as far as it is read. *)
Record DOMRect : Type := mkDOMRect {
  rect_left : R;
  rect_top : R;
  rect_width : R;
  rect_height : R
}.

(** A point of contact or of the pointer. *)
Record Point : Type := mkPoint {
  clientX : R;
  clientY : R
}.

(** The event, as far as it is read: [touches] (absent on mouse and
    pointer events) and the event's own [clientX], [clientY]. *)
Record Event : Type := mkEvent {
  touches : option (list Point);
  pointer : Point
}.

(** A diagram position [{ c, t }]. *)
Record Coords : Type := mkCoords {
  coord_c : R;
  coord_t : R
}.

(** [getDiagramCoordsFromEvent(e)], given [svgRef.current] as the rectangle
    it reports ([None] before the diagram is mounted).  The result is
    [None] when the function throws: [e.touches] is an empty array, so
    [e.touches[0]] is [undefined]. *)
Definition getDiagramCoordsFromEvent (zoomSteel : bool) (carbon temp : R)
           (svg : option DOMRect) (e : Event) : option Coords :=
  match svg with
  | None => Some (mkCoords carbon temp)
  | Some rect =>
      let client :=
        match touches e with
        | Some ts => List.nth_error ts 0
        | None => Some (pointer e)
        end in
      match client with
      | None => None
      | Some p =>
          let scaleX := svgW / rect_width rect in
          let scaleY := svgH / rect_height rect in
          let x := (clientX p - rect_left rect) * scaleX in
          let y := (clientY p - rect_top rect) * scaleY in
          let c := ((x - margin_left) / innerW) * maxC zoomSteel in
          let t := 1600 - ((y - margin_top) / innerH) * 1600 in
          Some (mkCoords (Rmax 0 (Rmin (maxC zoomSteel) c))
                         (Rmax 0 (Rmin 1600 t)))
      end
  end.

(** *** Component state and handlers *)

(** The [useState] cells that the handlers below read or write. *)
Record AppState : Type := mkAppState {
  carbon : R;
  temp : R;
  mode : string;
  coolingRate : R;
  zoomSteel : bool;
  isDragging : bool;
  historyTrail : list Coords
}.

Definition initial : AppState :=
  mkAppState 0.40 1600 "manual" 0 false false [].

Definition stepCarbon (dir : R) (st : AppState) : AppState :=
  mkAppState
    (Rmax 0 (Rmin (if zoomSteel st then 2.5 else 6.67)
                  (carbon st + dir * 0.01)))
    (temp st) "manual" (coolingRate st) (zoomSteel st) (isDragging st)
    (historyTrail st).

Definition stepTemp (dir : R) (st : AppState) : AppState :=
  mkAppState (carbon st) (Rmax 0 (Rmin 1600 (temp st + dir * 5)))
             "manual" (coolingRate st) (zoomSteel st) (isDragging st)
             (historyTrail st).

Definition toggleZoom (st : AppState) : AppState :=
  let nextZoom := negb (zoomSteel st) in
  mkAppState
    (if nextZoom && (carbon st >? 2.5) then 2.5 else carbon st)
    (temp st) (mode st) (coolingRate st) nextZoom (isDragging st)
    (historyTrail st).

(** The [onClick] of a preset button, for the preset carbon [pc]. *)
Definition selectPreset (pc : R) (st : AppState) : AppState :=
  mkAppState pc (temp st) "manual" (coolingRate st)
             (if (pc >? 2.5) && zoomSteel st then false else zoomSteel st)
             (isDragging st) (historyTrail st).

(** The [onChange] of the carbon number field, for the number [v] that
    [Number(e.target.value)] gives. *)
Definition typeCarbon (v : R) (st : AppState) : AppState :=
  mkAppState v (temp st) (mode st) (coolingRate st)
             (if (v >? 2.5) && zoomSteel st then false else zoomSteel st)
             (isDragging st) (historyTrail st).

(** [handlePointerDown(e)]; [None] when [getDiagramCoordsFromEvent]
    throws. *)
Definition handlePointerDown (svg : option DOMRect) (e : Event)
           (st : AppState) : option AppState :=
  match getDiagramCoordsFromEvent (zoomSteel st) (carbon st) (temp st)
                                  svg e with
  | None => None
  | Some p =>
      Some (mkAppState (coord_c p) (coord_t p) "manual" (coolingRate st)
                       (zoomSteel st) true (historyTrail st))
  end.

(** [handlePointerMove(e)]. *)
Definition handlePointerMove (svg : option DOMRect) (e : Event)
           (st : AppState) : option AppState :=
  if negb (isDragging st) then Some st
  else
    match getDiagramCoordsFromEvent (zoomSteel st) (carbon st) (temp st)
                                    svg e with
    | None => None
    | Some p =>
        Some (mkAppState (coord_c p) (coord_t p) (mode st) (coolingRate st)
                         (zoomSteel st) (isDragging st) (historyTrail st))
    end.

(** *** The cooling simulation *)

(** [rates[mode]]: the table of the cooling effect. *)
Definition rates (mode : string) : option R :=
  if String.eqb mode "anneal" then Some 2
  else if String.eqb mode "normalize" then Some 10
  else if String.eqb mode "quench" then Some 150
  else None.

(** The test that installs the interval. *)
Definition cooling (mode : string) : bool :=
  String.eqb mode "anneal" || String.eqb mode "normalize"
  || String.eqb mode "quench".

(** [prev.slice(-n)]: the last [n] entries. *)
Definition slice_last {A : Type} (n : nat) (xs : list A) : list A :=
  skipn (length xs - n) xs.

(** One run of the interval callback: the [setTemp] updater with the
    state changes it makes.  Without a cooling mode no interval is
    installed, and the state stays as it is.  The effects that React runs
    after a change of [mode] (resetting [coolingRate], clearing the trail
    in manual mode) are not part of the callback. *)
Definition tick (st : AppState) : AppState :=
  match rates (mode st) with
  | None => st
  | Some dropRate =>
      let t := temp st in
      if t <=? 20 then
        mkAppState (carbon st) 20 "manual" 0 (zoomSteel st) (isDragging st)
                   (historyTrail st)
      else
        let currentDrop :=
          if (String.eqb (mode st) "anneal"
              || String.eqb (mode st) "normalize")
             && (((t >? 700) && (t <? 740))
                 || ((t >? 1130) && (t <? 1160)))
          then Rmax 1 (dropRate / 3)
          else dropRate in
        let nextT := t - currentDrop in
        mkAppState (carbon st) nextT (mode st) (coolingRate st)
                   (zoomSteel st) (isDragging st)
                   (slice_last 30 (historyTrail st)
                      ++ [mkCoords (carbon st) nextT])
  end.

(** [n] ticks of the interval, which is cleared once the mode is no
    longer a cooling mode. *)
Fixpoint run (n : nat) (st : AppState) : AppState :=
  match n with
  | O => st
  | S k => if cooling (mode st) then run k (tick st) else st
  end.

End App.

(** ** Reasoning about the primitives *)

Section Comparisons.

Variables x y : R.

Lemma ltb_spec : reflect (x < y) (x <? y).
Proof. unfold JS.ltb. destruct (Rlt_dec x y); constructor; assumption. Qed.

Lemma leb_spec : reflect (x <= y) (x <=? y).
Proof. unfold JS.leb. destruct (Rle_dec x y); constructor; assumption. Qed.

Lemma gtb_spec : reflect (x > y) (x >? y).
Proof. unfold JS.gtb, JS.ltb. destruct (Rlt_dec y x); constructor; assumption. Qed.

Lemma geb_spec : reflect (x >= y) (x >=? y).
Proof.
  unfold JS.geb, JS.leb.
  destruct (Rle_dec y x); constructor; lra.
Qed.

End Comparisons.

(** Split on the first comparison that the goal (or a hypothesis) tests. *)
Ltac cmp_step :=
  match goal with
  | |- context [JS.gtb ?a ?b] => destruct (gtb_spec a b)
  | |- context [JS.geb ?a ?b] => destruct (geb_spec a b)
  | |- context [JS.ltb ?a ?b] => destruct (ltb_spec a b)
  | |- context [JS.leb ?a ?b] => destruct (leb_spec a b)
  end.

Ltac cmp_cases := repeat (cmp_step; cbn [andb orb negb]).

(** Decide the comparisons that linear arithmetic settles from the context. *)
Ltac cmp_decided r :=
  first [ destruct r; [ | exfalso; lra ] | destruct r; [ exfalso; lra | ] ].

Ltac cmp_lra :=
  repeat ( match goal with
  | |- context [JS.gtb ?a ?b] => cmp_decided (gtb_spec a b)
  | |- context [JS.geb ?a ?b] => cmp_decided (geb_spec a b)
  | |- context [JS.ltb ?a ?b] => cmp_decided (ltb_spec a b)
  | |- context [JS.leb ?a ?b] => cmp_decided (leb_spec a b)
  end; cbn [andb orb negb] ).

Section Clamp.

Lemma Rmax_l_eq (a b : R) : b <= a -> Rmax a b = a.
Proof. intros H. unfold Rmax. destruct (Rle_dec a b); lra. Qed.

Lemma Rmax_r_eq (a b : R) : a <= b -> Rmax a b = b.
Proof. intros H. unfold Rmax. destruct (Rle_dec a b); lra. Qed.

Lemma Rmin_l_eq (a b : R) : a <= b -> Rmin a b = a.
Proof. intros H. unfold Rmin. destruct (Rle_dec a b); lra. Qed.

Lemma Rmin_r_eq (a b : R) : b <= a -> Rmin a b = b.
Proof. intros H. unfold Rmin. destruct (Rle_dec a b); lra. Qed.

(** [Math.max(0, Math.min(hi, w))] lands in [[0, hi]]. *)
Lemma clamp_range (hi w : R) :
  0 <= hi -> 0 <= Rmax 0 (Rmin hi w) <= hi.
Proof.
  intros H. unfold Rmax, Rmin.
  destruct (Rle_dec hi w); destruct (Rle_dec 0 _); lra.
Qed.

Lemma clamp_id (hi w : R) :
  0 <= w <= hi -> Rmax 0 (Rmin hi w) = w.
Proof.
  intros H. unfold Rmax, Rmin.
  destruct (Rle_dec hi w); destruct (Rle_dec 0 _); lra.
Qed.

End Clamp.

Section Power.

Import JS.

Lemma Math_pow_0 (y : R) : Math_pow 0 y = 0.
Proof. unfold Math_pow. destruct (Req_dec_T 0 0); [reflexivity | lra]. Qed.

Lemma Math_pow_Rpower (x y : R) : 0 < x -> Math_pow x y = Rpower x y.
Proof. intros H. unfold Math_pow. destruct (Req_dec_T x 0); [lra | reflexivity]. Qed.

Lemma Math_pow_1 (y : R) : Math_pow 1 y = 1.
Proof.
  rewrite Math_pow_Rpower by lra.
  unfold Rpower. rewrite ln_1, Rmult_0_r. apply exp_0.
Qed.

Lemma ln_nonpos (x : R) : 0 < x <= 1 -> ln x <= 0.
Proof.
  intros [H0 [H1 | H1]].
  - left. rewrite <- ln_1. apply ln_increasing; assumption.
  - subst x. rewrite ln_1. lra.
Qed.

(** On a base in [(0, 1]] the power decreases as the exponent grows. *)
Lemma Rpower_exponent_antitone (x y z : R) :
  0 < x <= 1 -> y <= z -> Rpower x z <= Rpower x y.
Proof.
  intros Hx Hyz. unfold Rpower.
  pose proof (ln_nonpos x Hx) as Hln.
  assert (Hle : z * ln x <= y * ln x) by nra.
  destruct Hle as [Hlt | Heq].
  - left. apply exp_increasing. exact Hlt.
  - rewrite Heq. lra.
Qed.

Lemma Math_pow_pos (x y : R) : 0 < x -> 0 < Math_pow x y.
Proof.
  intros H. rewrite Math_pow_Rpower by assumption.
  unfold Rpower. apply exp_pos.
Qed.

(** The range of every [Math.pow] call of the boundary curves. *)
Lemma Math_pow_unit (x y : R) :
  0 <= x <= 1 -> 0 <= y -> 0 <= Math_pow x y <= 1.
Proof.
  intros [[Hx | Hx] Hx1] Hy.
  - split; [left; apply Math_pow_pos; assumption | ].
    rewrite Math_pow_Rpower by assumption.
    rewrite <- (Rpower_O x Hx).
    apply Rpower_exponent_antitone; [lra | assumption].
  - subst x. rewrite Math_pow_0. lra.
Qed.

Lemma Math_pow_between (x y : R) :
  0 < x <= 1 -> 1 <= y <= 2 -> x * x <= Math_pow x y <= x.
Proof.
  intros Hx [Hy1 Hy2]. rewrite Math_pow_Rpower by lra.
  split.
  - replace (x * x) with (Rpower x 2).
    + apply Rpower_exponent_antitone; assumption.
    + replace 2 with (INR 2) by (simpl; lra).
      rewrite Rpower_pow by lra. simpl. lra.
  - rewrite <- (Rpower_1 x) at 2 by lra.
    apply Rpower_exponent_antitone; assumption.
Qed.

Lemma Math_pow_cube (x : R) : 0 <= x -> Math_pow x 3 = x * x * x.
Proof.
  intros [Hx | Hx].
  - rewrite Math_pow_Rpower by assumption.
    replace 3 with (INR 3) by (simpl; lra).
    rewrite Rpower_pow by assumption. simpl. lra.
  - subst x. rewrite Math_pow_0. lra.
Qed.

End Power.

(** ** The boundary curves *)

Module CurveFacts.

Import JS ThermoEngine.

(** Every [Math.pow] call of a curve has its base in [[0, 1]]. *)
Ltac pow_unit :=
  match goal with
  | |- context [Math_pow ?b ?e] =>
      let H := fresh "Hpow" in
      assert (H : 0 <= Math_pow b e <= 1)
        by (apply Math_pow_unit; [ split; lra | lra ])
  end.

Lemma c_alpha_range (T : R) : 0 <= c_alpha T <= 0.022.
Proof.
  unfold c_alpha. cmp_cases; try lra.
  assert (Hb : 0 <= Rmax 0 T / 727 <= 1).
  { unfold Rmax. destruct (Rle_dec 0 T); lra. }
  pose proof (Math_pow_unit _ 3 Hb ltac:(lra)). lra.
Qed.

Lemma c_a3_range (T : R) : 0 <= c_a3 T <= 0.76.
Proof. unfold c_a3. cmp_cases; try lra; pow_unit; lra. Qed.

Lemma c_acm_range (T : R) : 0.76 <= c_acm T <= 2.11.
Proof. unfold c_acm. cmp_cases; try lra; pow_unit; lra. Qed.

Lemma c_solidus_range (T : R) : 0.17 <= c_solidus T <= 2.11.
Proof. unfold c_solidus. cmp_cases; try lra; pow_unit; lra. Qed.

Lemma c_liquidus_range (T : R) : 0.53 <= c_liquidus T <= 4.3.
Proof. unfold c_liquidus. cmp_cases; try lra; pow_unit; lra. Qed.

Lemma c_delta_solidus_range (T : R) : 0 <= c_delta_solidus T <= 0.09.
Proof. unfold c_delta_solidus. cmp_cases; lra. Qed.

Lemma c_delta_liquidus_range (T : R) : 0 <= c_delta_liquidus T <= 0.53.
Proof. unfold c_delta_liquidus. cmp_cases; lra. Qed.

(** The liquid/cementite line is the only curve without an upper clamp:
    it stays under 6.67 exactly up to 1250 degrees. *)
Lemma c_l_fe3c_range (T : R) : T <= 1250 -> 4.3 <= c_l_fe3c T <= 6.67.
Proof. intros H. unfold c_l_fe3c. cmp_cases; lra. Qed.

Lemma c_l_fe3c_above (T : R) : 1250 < T -> 6.67 < c_l_fe3c T.
Proof. intros H. unfold c_l_fe3c. cmp_cases; lra. Qed.

(** Values at the anchor temperatures. *)
Lemma c_alpha_912 : c_alpha 912 = 0.
Proof. unfold c_alpha. cmp_lra. lra. Qed.

Lemma c_a3_912 : c_a3 912 = 0.
Proof.
  unfold c_a3. cmp_lra.
  replace ((912 - 912) / 185) with 0 by lra.
  rewrite Math_pow_0. lra.
Qed.

Lemma c_acm_1147 : c_acm 1147 = 2.11.
Proof.
  unfold c_acm. cmp_lra.
  replace ((1147 - 727) / 420) with 1 by lra.
  rewrite Math_pow_1. lra.
Qed.

Lemma c_solidus_1147 : c_solidus 1147 = 2.11.
Proof.
  unfold c_solidus. cmp_lra.
  replace ((1495 - 1147) / 348) with 1 by lra.
  rewrite Math_pow_1. lra.
Qed.

Lemma c_liquidus_1147 : c_liquidus 1147 = 4.3.
Proof.
  unfold c_liquidus. cmp_lra.
  replace ((1495 - 1147) / 348) with 1 by lra.
  rewrite Math_pow_1. lra.
Qed.

Lemma c_l_fe3c_1147 : c_l_fe3c 1147 = 4.3.
Proof. unfold c_l_fe3c. cmp_lra. lra. Qed.

Lemma c_liquidus_1495 : c_liquidus 1495 = 0.53.
Proof.
  unfold c_liquidus. cmp_lra.
  replace ((1495 - 1495) / 348) with 0 by lra.
  rewrite Math_pow_0. lra.
Qed.

Lemma c_delta_liquidus_1495 : c_delta_liquidus 1495 = 0.53.
Proof. unfold c_delta_liquidus. cmp_lra. lra. Qed.

Lemma c_delta_solidus_1495 : c_delta_solidus 1495 = 0.09.
Proof. unfold c_delta_solidus. cmp_lra. lra. Qed.

End CurveFacts.

(** ** The solver *)

Module SolverFacts.

Import JS ThermoEngine Spec.

Lemma within_refl (eps a b : R) : 0 <= eps -> a = b -> within eps a b.
Proof.
  intros He ->. unfold within.
  replace (b - b) with 0 by lra. rewrite Rabs_R0. exact He.
Qed.

Lemma total_frac_one (f : PhaseFraction) : total_frac [f] = frac f.
Proof. unfold total_frac. simpl. lra. Qed.

Lemma total_frac_two (f g : PhaseFraction) :
  total_frac [f; g] = frac f + frac g.
Proof. unfold total_frac. simpl. lra. Qed.

(** Clamping both lever weights keeps their sum: when one saturates at
    100 the other saturates at 0. *)
Lemma clamped_weights (w : R) :
  Rmax 0 (Rmin 100 (100 - w)) + Rmax 0 (Rmin 100 w) = 100.
Proof.
  unfold Rmin.
  destruct (Rle_dec 100 (100 - w)); destruct (Rle_dec 100 w);
    unfold Rmax;
    repeat match goal with
           | |- context [Rle_dec ?a ?b] => destruct (Rle_dec a b)
           end; lra.
Qed.

Lemma single_total (safeC : R) (id nm : string) :
  total_frac (loc_fractions (single safeC id nm)) = 100.
Proof. unfold single. cbn [loc_fractions]. apply total_frac_one. Qed.

Lemma lever_total (safeC : R) (id n1 n2 : string) (c1 c2 : R) :
  total_frac (loc_fractions (lever safeC id n1 n2 c1 c2)) = 100.
Proof.
  unfold lever. cbn [loc_fractions]. cmp_cases.
  - apply total_frac_one.
  - rewrite total_frac_two. cbn [frac]. apply clamped_weights.
Qed.

Lemma classify_leaf (safeC safeT : R) : leaf safeC (classify safeC safeT).
Proof.
  unfold classify. cbv zeta.
  repeat match goal with
         | |- context [if ?b then _ else _] => destruct b
         end; constructor.
Qed.

Lemma classify_total (safeC safeT : R) :
  total_frac (loc_fractions (classify safeC safeT)) = 100.
Proof.
  destruct (classify_leaf safeC safeT).
  - apply single_total.
  - apply lever_total.
Qed.

Lemma renormalize_exact (fs : list PhaseFraction) :
  total_frac fs = 100 -> renormalize fs = fs.
Proof.
  intros H. unfold renormalize. cbv zeta. rewrite H.
  replace (100 - 100) with 0 by lra. rewrite Rabs_R0.
  unfold EPS. cmp_lra. reflexivity.
Qed.

(** The renormalisation step on its own: rescaling by [100 / total]
    brings any array with a non-zero total to a total of 100. *)
Lemma fold_frac_rescaled (total : R) (fs : list PhaseFraction) (acc : R) :
  total <> 0 ->
  fold_left (fun sum f => sum + frac f)
            (map (fun f => mkPhaseFraction (name f) ((frac f / total) * 100)
                                           (pos f)) fs)
            ((acc / total) * 100) =
  (fold_left (fun sum f => sum + frac f) fs acc / total) * 100.
Proof.
  intros Ht. revert acc. induction fs as [ | f fs IH]; intros acc.
  - reflexivity.
  - cbn [map fold_left frac]. rewrite <- IH. f_equal. field. exact Ht.
Qed.

Lemma renormalize_total (fs : list PhaseFraction) :
  total_frac fs <> 0 -> within EPS (total_frac (renormalize fs)) 100.
Proof.
  intros Ht. unfold renormalize. cbv zeta.
  destruct (gtb_spec (Rabs (total_frac fs - 100)) EPS) as [Hgt | Hle].
  - unfold total_frac at 1.
    replace 0 with ((0 / total_frac fs) * 100) at 1 by (field; exact Ht).
    rewrite fold_frac_rescaled by exact Ht. fold (total_frac fs).
    apply within_refl; [unfold EPS; lra | field; exact Ht].
  - unfold within. lra.
Qed.

Lemma classify_region (safeC safeT : R) :
  In (loc_regionId (classify safeC safeT)) equilibrium_ids.
Proof.
  unfold classify. cbv zeta.
  repeat match goal with
         | |- context [if ?b then _ else _] => destruct b
         end;
    unfold single, lever; cbn [loc_regionId]; unfold equilibrium_ids;
    cbn [In]; tauto.
Qed.

Lemma safeC_range (c : R) : 0 <= safeC_of c <= 6.67.
Proof. apply clamp_range. lra. Qed.

Lemma safeT_nonneg (T : R) : 0 <= safeT_of T.
Proof. unfold safeT_of, Rmax. destruct (Rle_dec 0 T); lra. Qed.

(** [getState] read as its two outcomes: the quench override, or the
    equilibrium classification. *)
Lemma getState_unfold (c T rate : R) :
  getState c T rate =
  let safeC := safeC_of c in
  let safeT := safeT_of T in
  let q := quench_test rate safeC safeT (Ms safeC) in
  let fs :=
    if q then
      [ mkPhaseFraction "Martensite (BCT)" (fm_of safeC safeT * 100) safeC;
        mkPhaseFraction "Retained Austenite"
                        ((1 - fm_of safeC safeT) * 100) safeC ]
    else loc_fractions (classify safeC safeT) in
  let id := if q then "martensite"
            else loc_regionId (classify safeC safeT) in
  mkState id (label_of q id safeC) fs q
          (if safeC <? 2.0 then Some (Ms safeC) else None)
          (predictProperties safeC safeT fs q).
Proof.
  unfold getState. cbv zeta.
  rewrite (renormalize_exact _ (classify_total _ _)).
  reflexivity.
Qed.

End SolverFacts.

(** ** The properties of the specification *)

Import JS ThermoEngine Spec CurveFacts SolverFacts.

Lemma safeC_of_id (c : R) : 0 <= c <= 6.67 -> safeC_of c = c.
Proof. apply clamp_id. Qed.

Lemma safeT_of_id (T : R) : 0 <= T -> safeT_of T = T.
Proof. apply Rmax_r_eq. Qed.

Lemma fm_of_unit (safeC safeT : R) : 0 <= fm_of safeC safeT <= 1.
Proof. unfold fm_of. apply clamp_range. lra. Qed.

(** The fractions of every state add up to 100, exactly. *)
Lemma getState_total (c T rate : R) :
  total_frac (fractions (getState c T rate)) = 100.
Proof.
  rewrite getState_unfold. cbv zeta. cbn [fractions].
  destruct (quench_test _ _ _ _).
  - rewrite total_frac_two. cbn [frac]. lra.
  - apply classify_total.
Qed.

(** C1.  Normalisation: for every input triple the [frac] fields of the
    [fractions] array returned by [getState] sum to 100 within 1e-6, on the
    equilibrium path (clamped lever weights, then renormalisation) and on
    the martensite override alike. *)
Theorem fractions_sum_to_100 (c T rate : R) :
  within 1e-6 (total_frac (fractions (getState c T rate))) 100.
Proof. apply within_refl; [lra | apply getState_total]. Qed.

(** C10.  The [regionId] of every state is one of the twelve identifiers,
    and its [regionLabel] is never the fallback ["Unknown Region"]. *)
Theorem region_is_labelled (c T rate : R) :
  In (regionId (getState c T rate))
     [ "L"; "delta"; "delta_L"; "delta_gamma"; "gamma"; "gamma_L"; "L_Fe3C";
       "alpha"; "alpha_gamma"; "gamma_Fe3C"; "alpha_Fe3C"; "martensite" ]
  /\ regionLabel (getState c T rate) <> "Unknown Region".
Proof.
  rewrite getState_unfold. cbv zeta. cbn [regionId regionLabel].
  destruct (quench_test _ _ _ _).
  - split; [cbn [In]; tauto | unfold label_of; discriminate].
  - pose proof (classify_region (safeC_of c) (safeT_of T)) as Hin.
    revert Hin. generalize (loc_regionId (classify (safeC_of c) (safeT_of T))).
    intros id Hin. unfold equilibrium_ids in Hin. cbn [In] in Hin.
    repeat (destruct Hin as [<- | Hin]; [ | ]); try contradiction;
      (split; [ cbn [In]; tauto
              | unfold label_of; simpl; cmp_cases; discriminate ]).
Qed.

(** C9.  End-to-end scenario: [getState(0.45, 1600, 0)] is the region
    ["L"] with the single phase ["Liquid"] at 100%, not quenched, with
    microstructure ["Uniform Liquid"], yield strength, tensile strength and
    hardness 0 and elongation 100. *)
Theorem liquid_scenario :
  getState 0.45 1600 0 =
  mkState "L" "Liquid Melt" [mkPhaseFraction "Liquid" 100 0.45] false
          (Some (539 - 423 * 0.45))
          (mkProperties "Uniform Liquid" "Amorphous" 0 0 0 100).
Proof.
  rewrite getState_unfold. cbv zeta.
  rewrite (safeC_of_id 0.45) by lra. rewrite (safeT_of_id 1600) by lra.
  unfold quench_test, classify, predictProperties, single, Ms.
  cmp_lra. cbn [loc_fractions loc_regionId]. reflexivity.
Qed.

(** The quench test, as the three comparisons it makes. *)
Lemma quench_test_true (rate safeC safeT ms : R) :
  quench_test rate safeC safeT ms = true <->
  rate >= 50 /\ safeC < 2.0 /\ safeT < ms.
Proof.
  unfold quench_test. cmp_cases; split; intros H;
    try discriminate; try reflexivity; lra.
Qed.

(** C2.  Quench gating and the martensite override.  The state is quenched
    exactly when [coolingRate >= 50], the clamped carbon is below 2.0 and
    the clamped temperature is below [Ms = 539 - 423 * carbon]; a quenched
    state has region ["martensite"] and the pair Martensite (BCT) at
    [fm * 100], Retained Austenite at [(1 - fm) * 100] with
    [fm = clamp (1 - exp (-0.011 * (Ms - T))) 0 1], whatever the
    equilibrium classification was, and a state that is not quenched keeps
    that classification.  [getState(0.4, 100, 10)] is not quenched,
    [getState(0.4, 100, 150)] is, [getState(2.5, 100, 150)] is not. *)
Theorem quench_gating (c T rate : R) :
  let safeC := Rmax 0 (Rmin 6.67 c) in
  let safeT := Rmax 0 T in
  let ms := 539 - 423 * safeC in
  let fm := Rmax 0 (Rmin 1 (1 - exp (- 0.011 * (ms - safeT)))) in
  let s := getState c T rate in
  (isQuenched s = true <-> rate >= 50 /\ safeC < 2.0 /\ safeT < ms)
  /\ regionId s =
     (if isQuenched s then "martensite"
      else loc_regionId (classify safeC safeT))
  /\ fractions s =
     (if isQuenched s then
        [ mkPhaseFraction "Martensite (BCT)" (fm * 100) safeC;
          mkPhaseFraction "Retained Austenite" ((1 - fm) * 100) safeC ]
      else loc_fractions (classify safeC safeT))
  /\ isQuenched (getState 0.4 100 10) = false
  /\ isQuenched (getState 0.4 100 150) = true
  /\ isQuenched (getState 2.5 100 150) = false.
Proof.
  cbv zeta.
  split; [ | split; [ | split; [ | split; [ | split ]]]].
  - rewrite getState_unfold. cbv zeta. cbn [isQuenched].
    apply quench_test_true.
  - rewrite getState_unfold. cbv zeta. cbn [isQuenched regionId].
    reflexivity.
  - rewrite getState_unfold. cbv zeta. cbn [isQuenched fractions].
    reflexivity.
  - rewrite getState_unfold. cbv zeta. cbn [isQuenched].
    unfold quench_test. cmp_lra. reflexivity.
  - rewrite getState_unfold. cbv zeta. cbn [isQuenched].
    rewrite (safeC_of_id 0.4) by lra. rewrite (safeT_of_id 100) by lra.
    unfold quench_test, Ms. cmp_lra. reflexivity.
  - rewrite getState_unfold. cbv zeta. cbn [isQuenched].
    rewrite (safeC_of_id 2.5) by lra.
    unfold quench_test. cmp_lra. reflexivity.
Qed.

(** C6.  Domain saturation: carbon below 0 acts as 0, carbon above 6.67 as
    6.67, and a negative temperature as 0. *)
Theorem domain_saturation (c T Tneg r : R) (Hneg : Tneg < 0) :
  fractions (getState (-5) T r) = fractions (getState 0 T r)
  /\ getState 10 T r = getState 6.67 T r
  /\ getState c Tneg r = getState c 0 r.
Proof.
  assert (Hlo : Rmax 0 (Rmin 6.67 (-5)) = Rmax 0 (Rmin 6.67 0)).
  { unfold Rmax, Rmin.
    destruct (Rle_dec 6.67 (-5)); destruct (Rle_dec 6.67 0); try lra;
      destruct (Rle_dec 0 (-5)); destruct (Rle_dec 0 0); lra. }
  assert (Hhi : Rmax 0 (Rmin 6.67 10) = Rmax 0 (Rmin 6.67 6.67)).
  { unfold Rmax, Rmin.
    destruct (Rle_dec 6.67 10); destruct (Rle_dec 6.67 6.67); try lra;
      destruct (Rle_dec 0 6.67); lra. }
  assert (HT : Rmax 0 Tneg = Rmax 0 0).
  { rewrite (Rmax_l_eq 0 Tneg) by lra. rewrite (Rmax_l_eq 0 0) by lra.
    reflexivity. }
  unfold getState. cbv zeta. rewrite Hlo, Hhi, HT. repeat split.
Qed.

Lemma domain_saturation_witness :
  fractions (getState (-5) 800 60) = fractions (getState 0 800 60)
  /\ getState 10 800 60 = getState 6.67 800 60
  /\ getState 0.4 (-40) 60 = getState 0.4 0 60.
Proof. apply (domain_saturation 0.4 800 (-40) 60). lra. Defined.

(** Every [frac] that the solver returns is a percentage. *)
Lemma leaf_percent (safeC : R) (loc : Locals) :
  leaf safeC loc ->
  loc_fractions loc <> [] /\
  Forall (fun f => 0 <= frac f <= 100) (loc_fractions loc).
Proof.
  intros [id nm | id n1 n2 c1 c2].
  - unfold single. cbn [loc_fractions]. split; [discriminate | ].
    constructor; [cbn [frac]; lra | constructor].
  - unfold lever. cbn [loc_fractions]. cmp_cases.
    + split; [discriminate | ].
      constructor; [cbn [frac]; lra | constructor].
    + split; [discriminate | ].
      constructor; [ | constructor; [ | constructor ]];
        cbn [frac]; apply clamp_range; lra.
Qed.

(** C8.  The lever rule guards its division: when the tie-line span
    [c2 - c1] is below [EPS] the closure returns the single entry
    [{name1, 100, c1}] without dividing (whatever the division would give),
    and in every evaluation the result depends on the division only at
    divisors that are at least [EPS]; [getState] returns, for every input, a
    state whose [fractions] array is not empty and holds percentages. *)
Theorem lever_guard (div : R -> R -> R) (safeC c1 c2 : R)
        (id n1 n2 : string) (Hspan : c2 - c1 < EPS) :
  lever safeC id n1 n2 c1 c2 =
    mkLocals id [n1; n2] [mkPhaseFraction n1 100 c1]
  /\ lever_with div safeC id n1 n2 c1 c2 = lever safeC id n1 n2 c1 c2
  /\ (forall (div' : R -> R -> R) (b1 b2 : R),
         (forall a d, EPS <= d -> div' a d = a / d) ->
         lever_with div' safeC id n1 n2 b1 b2 = lever safeC id n1 n2 b1 b2)
  /\ (forall c T rate,
         fractions (getState c T rate) <> [] /\
         Forall (fun f => 0 <= frac f <= 100)
                (fractions (getState c T rate))).
Proof.
  split; [ | split; [ | split ]].
  - unfold lever. cmp_lra. reflexivity.
  - unfold lever_with, lever. cmp_lra. reflexivity.
  - intros div' b1 b2 Hdiv. unfold lever_with, lever. cbv zeta.
    destruct (ltb_spec (b2 - b1) EPS) as [Hlt | Hge]; [reflexivity | ].
    rewrite Hdiv by lra. reflexivity.
  - intros c T rate. rewrite getState_unfold. cbv zeta. cbn [fractions].
    destruct (quench_test _ _ _ _).
    + pose proof (fm_of_unit (safeC_of c) (safeT_of T)) as Hfm.
      split; [discriminate | ].
      constructor; [ | constructor; [ | constructor ]]; cbn [frac]; lra.
    + apply (leaf_percent (safeC_of c)). apply classify_leaf.
Qed.

Lemma lever_guard_witness :
  lever 6.67 "L_Fe3C" "Liquid" "Cementite (Fe₃C)" 6.67 6.67 =
    mkLocals "L_Fe3C" ["Liquid"; "Cementite (Fe₃C)"]
             [mkPhaseFraction "Liquid" 100 6.67].
Proof.
  apply (lever_guard Rdiv 6.67 6.67 6.67 "L_Fe3C" "Liquid" "Cementite (Fe₃C)").
  unfold EPS. lra.
Defined.

(** Around 1495 degrees the delta solidus moves by at most 0.003 wt% per
    degree, on either of its two pieces. *)
Lemma c_delta_solidus_lipschitz (T : R) :
  1394 <= T <= 1538 ->
  Rabs (c_delta_solidus T - c_delta_solidus 1495) <= 0.003 * Rabs (T - 1495).
Proof.
  intros HT. rewrite c_delta_solidus_1495.
  unfold c_delta_solidus. cmp_cases; try lra;
    unfold Rabs; repeat destruct (Rcase_abs _); lra.
Qed.

(** C5.  Boundary continuity: adjacent curves agree at their shared anchor
    temperature, within 1e-3: A3 and the alpha solvus at 912, Acm and the
    solidus at 1147, the liquidus and the liquid/cementite line at 1147,
    the delta liquidus and the liquidus at 1495; and the delta solidus is
    continuous at 1495, where its two pieces meet. *)
Theorem boundary_continuity :
  within 1e-3 (c_a3 912) (c_alpha 912)
  /\ within 1e-3 (c_acm 1147) (c_solidus 1147)
  /\ within 1e-3 (c_liquidus 1147) (c_l_fe3c 1147)
  /\ continuity_pt c_delta_solidus 1495
  /\ within 1e-3 (c_delta_liquidus 1495) (c_liquidus 1495).
Proof.
  split; [ | split; [ | split; [ | split ]]].
  - apply within_refl; [lra | ]. rewrite c_a3_912, c_alpha_912. reflexivity.
  - apply within_refl; [lra | ].
    rewrite c_acm_1147, c_solidus_1147. reflexivity.
  - apply within_refl; [lra | ].
    rewrite c_liquidus_1147, c_l_fe3c_1147. reflexivity.
  - intros eps Heps. exists (Rmin 43 (eps * 300)). split.
    + apply Rmin_glb_lt; lra.
    + intros x [_ Hd]. cbn [dist R_met] in *. unfold R_dist in *.
      pose proof (Rmin_l 43 (eps * 300)) as H43.
      pose proof (Rmin_r 43 (eps * 300)) as Heps'.
      assert (Hx : 1394 <= x <= 1538).
      { revert Hd. unfold Rabs. destruct (Rcase_abs _); lra. }
      pose proof (c_delta_solidus_lipschitz x Hx) as Hlip.
      lra.
  - apply within_refl; [lra | ].
    rewrite c_delta_liquidus_1495, c_liquidus_1495. reflexivity.
Qed.

(** The seven curves that clamp on both sides of their band stay within
    the carbon axis [[0, 6.67]] at every temperature. *)
Lemma clamped_curves_in_range (T : R) :
  Forall (fun f : R -> R => 0 <= f T <= 6.67)
         [ c_alpha; c_a3; c_acm; c_solidus; c_liquidus;
           c_delta_solidus; c_delta_liquidus ].
Proof.
  pose proof (c_alpha_range T). pose proof (c_a3_range T).
  pose proof (c_acm_range T). pose proof (c_solidus_range T).
  pose proof (c_liquidus_range T). pose proof (c_delta_solidus_range T).
  pose proof (c_delta_liquidus_range T).
  repeat (apply Forall_cons; [lra | ]). apply Forall_nil.
Qed.

(** C4.  The liquid/cementite line at 1300 degrees, a temperature inside
    the stated domain at which [getState] evaluates the curve: it has no
    upper clamp, and its value is about 7.82 wt% C, beyond the cementite
    limit 6.67. *)
Theorem c_l_fe3c_at_1300 :
  0 <= 1300 <= 1538 /\ 7.82 < c_l_fe3c 1300 < 7.83 /\ 6.67 < c_l_fe3c 1300.
Proof. unfold c_l_fe3c. cmp_lra. lra. Qed.

(** Bounds on a lever weight [a / s * 100] without dividing. *)
Lemma weight_gt (a s k : R) : 0 < s -> k * s < a * 100 -> k < a / s * 100.
Proof.
  intros Hs H. apply (Rmult_lt_reg_r s); [assumption | ].
  replace (a / s * 100 * s) with (a * 100) by (field; lra). assumption.
Qed.

Lemma weight_lt (a s k : R) : 0 < s -> a * 100 < k * s -> a / s * 100 < k.
Proof.
  intros Hs H. apply (Rmult_lt_reg_r s); [assumption | ].
  replace (a / s * 100 * s) with (a * 100) by (field; lra). assumption.
Qed.

Lemma percent_id (w : R) : 0 <= w <= 100 -> Rmax 0 (Rmin 100 w) = w.
Proof. apply clamp_id. Qed.

(** The tie line of the ferrite + austenite field at 750 degrees. *)
Lemma c_alpha_750 : c_alpha 750 = 0.022 * (162 / 185).
Proof. unfold c_alpha. cmp_lra. lra. Qed.

Lemma c_a3_750 : c_a3 750 = 0.76 * Math_pow (162 / 185) 1.2.
Proof.
  unfold c_a3. cmp_lra.
  replace ((912 - 750) / 185) with (162 / 185) by lra. reflexivity.
Qed.

Lemma c_a3_750_bounds : 0.58 < c_a3 750 < 0.67.
Proof.
  rewrite c_a3_750.
  assert (Hx : 0 < 162 / 185 <= 1) by lra.
  pose proof (Math_pow_between (162 / 185) 1.2 Hx ltac:(lra)) as Hp.
  lra.
Qed.

(** Neither input of this section is quenched: the cooling rate is 0. *)
Lemma slow_cooling (safeC safeT ms : R) : quench_test 0 safeC safeT ms = false.
Proof. unfold quench_test. cmp_lra. reflexivity. Qed.

(** C3, as stated, fails: at 750 degrees the tie line ends below 0.02 and
    below 0.67, not at 0.022 and 0.76, and [getState(0.41, 750, 0)] holds
    less than 40% ferrite and more than 60% austenite. *)
Lemma lever_750_not_even :
  exists w1 w2 c1 c2,
    fractions (getState 0.41 750 0) =
      [ mkPhaseFraction "Ferrite (α)" w1 c1;
        mkPhaseFraction "Austenite (γ)" w2 c2 ]
    /\ c1 < 0.02 /\ c2 < 0.67 /\ w1 < 40 /\ 60 < w2.
Proof.
  rewrite getState_unfold. cbv zeta. cbn [fractions].
  rewrite (safeC_of_id 0.41) by lra. rewrite (safeT_of_id 750) by lra.
  rewrite slow_cooling.
  pose proof c_a3_750_bounds as Hc2. pose proof c_alpha_750 as Hc1.
  unfold classify. cbv zeta. cmp_lra.
  unfold lever. cbn [loc_fractions]. unfold EPS. cmp_lra.
  do 4 eexists. split; [reflexivity | ].
  assert (Hw : 60 < (0.41 - c_alpha 750) / (c_a3 750 - c_alpha 750) * 100).
  { apply weight_gt; lra. }
  revert Hw. generalize ((0.41 - c_alpha 750) / (c_a3 750 - c_alpha 750) * 100).
  intros w Hw. repeat split; try lra.
  - unfold Rmin. destruct (Rle_dec 100 (100 - w)); unfold Rmax;
      destruct (Rle_dec 0 _); lra.
  - unfold Rmin. destruct (Rle_dec 100 w); unfold Rmax;
      destruct (Rle_dec 0 _); lra.
Qed.

(** C3, amended.  At 750 degrees the tie line of the ferrite + austenite
    field runs from [c_alpha 750 = 0.022 * 162/185] to
    [c_a3 750 = 0.76 * (162/185)^1.2], which lies between 0.58 and 0.67;
    the carbon content at its midpoint splits exactly 50/50. *)
Theorem lever_midpoint_750 :
  let c1 := c_alpha 750 in
  let c2 := c_a3 750 in
  c1 = 0.022 * (162 / 185)
  /\ c2 = 0.76 * Math_pow (162 / 185) 1.2
  /\ 0.58 < c2 < 0.67
  /\ fractions (getState ((c1 + c2) / 2) 750 0) =
       [ mkPhaseFraction "Ferrite (α)" 50 c1;
         mkPhaseFraction "Austenite (γ)" 50 c2 ].
Proof.
  cbv zeta.
  pose proof c_a3_750_bounds as Hc2. pose proof c_alpha_750 as Hc1.
  split; [exact c_alpha_750 | split; [exact c_a3_750 | split; [exact Hc2 | ]]].
  rewrite getState_unfold. cbv zeta. cbn [fractions].
  rewrite safeC_of_id by lra. rewrite (safeT_of_id 750) by lra.
  rewrite slow_cooling.
  unfold classify. cbv zeta. cmp_lra.
  unfold lever. cbn [loc_fractions]. unfold EPS. cmp_lra.
  replace (((c_alpha 750 + c_a3 750) / 2 - c_alpha 750)
           / (c_a3 750 - c_alpha 750) * 100) with 50 by (field; lra).
  replace (100 - 50) with 50 by lra.
  rewrite percent_id by lra. reflexivity.
Qed.

(** C7, as stated, fails: the eutectoid state below A1 is not single
    phase, its [fractions] array has two entries. *)
Lemma eutectoid_point_two_entries :
  length (fractions (getState 0.76 700 0)) = 2%nat.
Proof.
  rewrite getState_unfold. cbv zeta. cbn [fractions].
  rewrite (safeC_of_id 0.76) by lra. rewrite (safeT_of_id 700) by lra.
  rewrite slow_cooling.
  pose proof (c_alpha_range 700) as Hc1.
  unfold classify. cbv zeta. cmp_lra.
  unfold lever. cbn [loc_fractions]. unfold EPS. cmp_lra. reflexivity.
Qed.

(** C7, amended.  [getState(0.76, 700, 0)] has region id ["alpha_Fe3C"],
    the eutectoid label and the pearlite microstructure, and is not
    quenched; its constitution is the lever-rule pair of ferrite and
    cementite between [c_alpha 700] and 6.67, between 11% and 12% of it
    cementite. *)
Theorem eutectoid_point :
  let s := getState 0.76 700 0 in
  let c1 := c_alpha 700 in
  let w2 := (0.76 - c1) / (6.67 - c1) * 100 in
  regionId s = "alpha_Fe3C"
  /\ regionLabel s = "Eutectoid (Pearlite)"
  /\ micro (properties s) = "100% Pearlite (Lamellar)"
  /\ isQuenched s = false
  /\ fractions s =
       [ mkPhaseFraction "Ferrite (α)" (100 - w2) c1;
         mkPhaseFraction "Cementite (Fe₃C)" w2 6.67 ]
  /\ 11 < w2 < 12.
Proof.
  cbv zeta.
  pose proof (c_alpha_range 700) as Hc1.
  assert (Hw : 11 < (0.76 - c_alpha 700) / (6.67 - c_alpha 700) * 100 < 12).
  { split; [apply weight_gt | apply weight_lt]; lra. }
  rewrite getState_unfold. cbv zeta.
  cbn [regionId regionLabel properties isQuenched fractions].
  rewrite (safeC_of_id 0.76) by lra. rewrite (safeT_of_id 700) by lra.
  rewrite slow_cooling.
  unfold classify. cbv zeta. cmp_lra.
  unfold lever. cbn [loc_fractions loc_regionId]. unfold EPS. cmp_lra.
  unfold label_of, predictProperties. cbv zeta.
  replace (0.76 - 0.76) with 0 by lra. rewrite Rabs_R0.
  cmp_lra. cbn [micro String.eqb].
  rewrite !percent_id by lra.
  repeat split; try reflexivity; lra.
Qed.

(** ** Further properties of the engine *)

Import Derived.

Section ComparisonValues.

Variables x y : R.

Lemma ltb_true : (x <? y) = true -> x < y.
Proof. destruct (ltb_spec x y); [trivial | discriminate]. Qed.

Lemma ltb_false : (x <? y) = false -> y <= x.
Proof. destruct (ltb_spec x y); [discriminate | lra]. Qed.

Lemma leb_true : (x <=? y) = true -> x <= y.
Proof. destruct (leb_spec x y); [trivial | discriminate]. Qed.

Lemma leb_false : (x <=? y) = false -> y < x.
Proof. destruct (leb_spec x y); [discriminate | lra]. Qed.

Lemma gtb_true : (x >? y) = true -> y < x.
Proof. destruct (gtb_spec x y); [lra | discriminate]. Qed.

Lemma gtb_false : (x >? y) = false -> x <= y.
Proof. destruct (gtb_spec x y); [discriminate | lra]. Qed.

Lemma geb_true : (x >=? y) = true -> y <= x.
Proof. destruct (geb_spec x y); [lra | discriminate]. Qed.

Lemma geb_false : (x >=? y) = false -> x < y.
Proof. destruct (geb_spec x y); [discriminate | lra]. Qed.

End ComparisonValues.

(** Turn the recorded outcomes of boolean tests into inequalities. *)
Ltac bool_hyps :=
  repeat match goal with
  | H : andb _ _ = true |- _ => apply andb_prop in H; destruct H
  | H : andb _ _ = false |- _ => apply andb_false_iff in H; destruct H
  | H : orb _ _ = true |- _ => apply orb_prop in H; destruct H
  | H : orb _ _ = false |- _ => apply orb_false_elim in H; destruct H
  | H : JS.ltb _ _ = true |- _ => apply ltb_true in H
  | H : JS.ltb _ _ = false |- _ => apply ltb_false in H
  | H : JS.leb _ _ = true |- _ => apply leb_true in H
  | H : JS.leb _ _ = false |- _ => apply leb_false in H
  | H : JS.gtb _ _ = true |- _ => apply gtb_true in H
  | H : JS.gtb _ _ = false |- _ => apply gtb_false in H
  | H : JS.geb _ _ = true |- _ => apply geb_true in H
  | H : JS.geb _ _ = false |- _ => apply geb_false in H
  end.

(** Split on the outermost test of the goal, keeping its outcome. *)
Ltac split_tests :=
  repeat match goal with
  | |- context [if ?b then _ else _] =>
      let H := fresh "Htest" in destruct b eqn:H
  end.

Lemma classify_tie_leaf (safeC safeT : R) :
  safeC <= 6.67 -> tie_leaf safeC (classify safeC safeT).
Proof.
  intros Hc. unfold classify. cbv zeta. split_tests;
    first [ apply tie_single | apply tie_lever; bool_hyps; lra ].
Qed.

Lemma carbon_of_one (f : PhaseFraction) : carbon_of [f] = frac f * pos f.
Proof. unfold carbon_of. simpl. lra. Qed.

Lemma carbon_of_two (f g : PhaseFraction) :
  carbon_of [f; g] = frac f * pos f + frac g * pos g.
Proof. unfold carbon_of. simpl. lra. Qed.

(** The lever rule proper: on a tie line that holds the bulk carbon, the
    two weights are percentages as computed, and they balance. *)
Lemma lever_weights (safeC c1 c2 : R) :
  EPS <= c2 - c1 -> c1 <= safeC <= c2 ->
  0 <= (safeC - c1) / (c2 - c1) * 100 <= 100.
Proof.
  unfold EPS. intros Hs Hc.
  assert (Hpos : 0 < c2 - c1) by lra.
  split.
  - apply Rmult_le_pos; [ | lra].
    apply Rmult_le_pos; [lra | left; apply Rinv_0_lt_compat; assumption].
  - apply (Rmult_le_reg_r (c2 - c1)); [assumption | ].
    replace ((safeC - c1) / (c2 - c1) * 100 * (c2 - c1))
      with ((safeC - c1) * 100) by (field; lra).
    lra.
Qed.

Lemma tie_leaf_balance (safeC : R) (loc : Locals) :
  tie_leaf safeC loc ->
  Rabs (carbon_of (loc_fractions loc) - 100 * safeC) <= 100 * EPS
  /\ (carbon_of (loc_fractions loc) = 100 * safeC
      \/ length (loc_fractions loc) = 1%nat)
  /\ match loc_fractions loc with
     | [f1; f2] => pos f1 <= safeC <= pos f2
     | _ => True
     end.
Proof.
  intros [id nm | id n1 n2 c1 c2 Hc].
  - unfold single. cbn [loc_fractions]. rewrite carbon_of_one. cbn [frac pos].
    replace (100 * safeC - 100 * safeC) with 0 by lra. rewrite Rabs_R0.
    unfold EPS. split; [lra | split; [left; reflexivity | exact I]].
  - unfold lever. cbn [loc_fractions].
    destruct (ltb_spec (c2 - c1) EPS) as [Hlt | Hge].
    + rewrite carbon_of_one. cbn [frac pos length].
      split; [ | split; [right; reflexivity | exact I]].
      revert Hlt. unfold EPS. intros Hlt.
      unfold Rabs. destruct (Rcase_abs _); lra.
    + assert (Hs : EPS <= c2 - c1) by lra.
      pose proof (lever_weights safeC c1 c2 Hs Hc) as Hw.
      rewrite carbon_of_two. cbn [frac pos].
      rewrite (percent_id ((safeC - c1) / (c2 - c1) * 100)) by exact Hw.
      rewrite (percent_id (100 - (safeC - c1) / (c2 - c1) * 100)) by lra.
      assert (Heq : (100 - (safeC - c1) / (c2 - c1) * 100) * c1
                    + (safeC - c1) / (c2 - c1) * 100 * c2 = 100 * safeC).
      { revert Hs. unfold EPS. intros Hs. field. lra. }
      rewrite Heq.
      replace (100 * safeC - 100 * safeC) with 0 by lra. rewrite Rabs_R0.
      unfold EPS. split; [lra | split; [left; reflexivity | lra]].
Qed.

(** X1.  Carbon balance.  In every state the fractions, weighted by the
    carbon content of their phases, account for the bulk carbon: exactly
    whenever the state has two entries (or comes from [single]), and
    within [100 * EPS] in the degenerate tie-line case; and in a two-entry
    state the clamped carbon lies on the tie line between the two [pos]. *)
Theorem carbon_balance (c T rate : R) :
  let s := getState c T rate in
  let safeC := Rmax 0 (Rmin 6.67 c) in
  Rabs (carbon_of (fractions s) - 100 * safeC) <= 100 * EPS
  /\ (carbon_of (fractions s) = 100 * safeC
      \/ length (fractions s) = 1%nat)
  /\ match fractions s with
     | [f1; f2] => pos f1 <= safeC <= pos f2
     | _ => True
     end.
Proof.
  cbv zeta. rewrite getState_unfold. cbv zeta. cbn [fractions].
  fold (safeC_of c).
  destruct (quench_test _ _ _ _).
  - rewrite carbon_of_two. cbn [frac pos].
    replace (fm_of (safeC_of c) (safeT_of T) * 100 * safeC_of c
             + (1 - fm_of (safeC_of c) (safeT_of T)) * 100 * safeC_of c
             - 100 * safeC_of c) with 0 by ring.
    rewrite Rabs_R0. unfold EPS.
    split; [lra | split; [left; ring | lra]].
  - apply tie_leaf_balance. apply classify_tie_leaf.
    apply (safeC_range c).
Qed.

(** No state at or above 539 degrees is quenched. *)
Lemma quench_test_hot (rate safeC safeT : R) :
  0 <= safeC -> 539 <= safeT ->
  quench_test rate safeC safeT (Ms safeC) = false.
Proof.
  intros Hc HT. unfold quench_test, Ms.
  destruct (ltb_spec safeT (539 - 423 * safeC)) as [Hlt | Hge];
    [exfalso; lra | ].
  rewrite andb_false_r. reflexivity.
Qed.

(** X2.  At or above 1538 degrees every alloy is liquid, at any carbon
    content and cooling rate: one phase at 100%, the liquid properties. *)
Theorem above_melting_is_liquid (c T rate : R) (HT : 1538 <= T) :
  let safeC := Rmax 0 (Rmin 6.67 c) in
  getState c T rate =
  mkState "L" "Liquid Melt" [mkPhaseFraction "Liquid" 100 safeC] false
          (if safeC <? 2.0 then Some (539 - 423 * safeC) else None)
          (mkProperties "Uniform Liquid" "Amorphous" 0 0 0 100).
Proof.
  cbv zeta. rewrite getState_unfold. cbv zeta. fold (safeC_of c).
  rewrite (safeT_of_id T) by lra.
  rewrite quench_test_hot by (try apply safeC_range; lra).
  unfold classify, predictProperties, single, Ms.
  cmp_lra. cbn [loc_fractions loc_regionId]. reflexivity.
Qed.

Lemma above_melting_is_liquid_witness :
  getState 3 1550 200 =
  mkState "L" "Liquid Melt"
          [mkPhaseFraction "Liquid" 100 (Rmax 0 (Rmin 6.67 3))] false
          (if Rmax 0 (Rmin 6.67 3) <? 2.0
           then Some (539 - 423 * Rmax 0 (Rmin 6.67 3)) else None)
          (mkProperties "Uniform Liquid" "Amorphous" 0 0 0 100).
Proof. apply (above_melting_is_liquid 3 1550 200). lra. Defined.

Lemma carbon_free_fractions (c T rate : R) :
  c <= 0 -> rate < 50 ->
  fractions (getState c T rate) =
  [mkPhaseFraction (iron_phase (Rmax 0 T)) 100 0].
Proof.
  intros Hc Hrate.
  rewrite getState_unfold. cbv zeta. cbn [fractions].
  assert (HsC : safeC_of c = 0).
  { unfold safeC_of. rewrite (Rmin_r_eq 6.67 c) by lra.
    apply Rmax_l_eq. exact Hc. }
  rewrite HsC. fold (safeT_of T).
  assert (Hq : quench_test rate 0 (safeT_of T) (Ms 0) = false).
  { unfold quench_test. cmp_lra. reflexivity. }
  rewrite Hq.
  pose proof (c_delta_solidus_range (safeT_of T)).
  pose proof (c_solidus_range (safeT_of T)).
  pose proof (c_alpha_range (safeT_of T)).
  unfold classify, iron_phase. cbv zeta.
  destruct (geb_spec (safeT_of T) 1394) as [H1394 | H1394];
    destruct (geb_spec (safeT_of T) 1538) as [H1538 | H1538];
    try (exfalso; lra); cbn [andb].
  - reflexivity.
  - cmp_lra. destruct (geb_spec (safeT_of T) 1495); reflexivity.
  - destruct (gtb_spec (safeT_of T) 1147); destruct (gtb_spec (safeT_of T) 727);
      cmp_lra; reflexivity.
Qed.

(** X3.  A carbon-free alloy that is cooled slowly is a single phase at
    100% at every temperature: liquid from 1538 degrees, delta ferrite
    from 1394, austenite above 1147 and ferrite at and below. *)
Theorem carbon_free_single_phase (c T rate : R)
        (Hc : c <= 0) (Hrate : rate < 50) :
  fractions (getState c T rate) =
  [mkPhaseFraction (iron_phase (Rmax 0 T)) 100 0].
Proof. apply carbon_free_fractions; assumption. Qed.

Lemma carbon_free_single_phase_witness :
  fractions (getState 0 500 10) =
  [mkPhaseFraction (iron_phase (Rmax 0 500)) 100 0].
Proof. apply (carbon_free_single_phase 0 500 10); lra. Defined.

(** X4.  Between 912 and 1147 degrees [c_a3] is back at its constant 0.76
    and [c_alpha] is 0, so every carbon content in (0, 0.76] is read as
    ferrite + austenite on the tie line from 0 to 0.76, whatever the
    cooling rate. *)
Theorem intercritical_above_912 (c T rate : R)
        (HT : 912 < T <= 1147) (Hc : 0 < c <= 0.76) :
  let s := getState c T rate in
  regionId s = "alpha_gamma"
  /\ regionLabel s = "Intercritical (α + γ)"
  /\ fractions s =
       [ mkPhaseFraction "Ferrite (α)" (100 - c / 0.76 * 100) 0;
         mkPhaseFraction "Austenite (γ)" (c / 0.76 * 100) 0.76 ].
Proof.
  cbv zeta. rewrite getState_unfold. cbv zeta.
  cbn [regionId regionLabel fractions].
  rewrite (safeC_of_id c) by lra. rewrite (safeT_of_id T) by lra.
  rewrite quench_test_hot by lra.
  assert (Ha : c_alpha T = 0) by (unfold c_alpha; cmp_lra; reflexivity).
  assert (H3 : c_a3 T = 0.76) by (unfold c_a3; cmp_lra; reflexivity).
  unfold classify. cbv zeta. rewrite Ha, H3. cmp_lra.
  unfold lever. cbn [loc_fractions loc_regionId]. unfold EPS. cmp_lra.
  replace ((c - 0) / (0.76 - 0) * 100) with (c / 0.76 * 100) by lra.
  assert (Hw : 0 <= c / 0.76 * 100 <= 100) by lra.
  rewrite !percent_id by lra.
  split; [reflexivity | split; reflexivity].
Qed.

Lemma intercritical_above_912_witness :
  regionId (getState 0.4 1000 0) = "alpha_gamma".
Proof. apply (intercritical_above_912 0.4 1000 0); lra. Defined.

Section Rounding.

Lemma Math_round_IZR (n : Z) : Math_round (IZR n) = n.
Proof.
  unfold Math_round, Int_part.
  assert (H : (n + 1)%Z = up (IZR n + / 2)).
  { apply tech_up; rewrite plus_IZR; lra. }
  rewrite <- H. lia.
Qed.

Lemma Math_round_monotone (x y : R) :
  x <= y -> (Math_round x <= Math_round y)%Z.
Proof.
  intros Hxy. unfold Math_round, Int_part.
  destruct (archimed (x + / 2)) as [Hx1 Hx2].
  destruct (archimed (y + / 2)) as [Hy1 Hy2].
  assert (H : (up (x + / 2) < up (y + / 2) + 1)%Z).
  { apply lt_IZR. rewrite plus_IZR. lra. }
  lia.
Qed.

Lemma Math_round_lower (n : Z) (x : R) :
  IZR n <= x -> (n <= Math_round x)%Z.
Proof.
  intros H. rewrite <- (Math_round_IZR n) at 1.
  apply Math_round_monotone. exact H.
Qed.

Lemma Math_round_upper (n : Z) (x : R) :
  x <= IZR n -> (Math_round x <= n)%Z.
Proof.
  intros H. rewrite <- (Math_round_IZR n).
  apply Math_round_monotone. exact H.
Qed.

End Rounding.

(** The share that [predictProperties] looks up is a share of one. *)
Lemma share_of_unit (key : string) (fs : list PhaseFraction) :
  Forall (fun f => 0 <= frac f <= 100) fs -> 0 <= share_of key fs <= 1.
Proof.
  intros Hall. unfold share_of, JS.find.
  destruct (List.find _ fs) as [f | ] eqn:Hfind; [ | lra].
  apply find_some in Hfind. destruct Hfind as [Hin _].
  rewrite Forall_forall in Hall. specialize (Hall f Hin). lra.
Qed.

Lemma getState_percent (c T rate : R) :
  Forall (fun f => 0 <= frac f <= 100) (fractions (getState c T rate)).
Proof.
  rewrite getState_unfold. cbv zeta. cbn [fractions].
  destruct (quench_test _ _ _ _).
  - pose proof (fm_of_unit (safeC_of c) (safeT_of T)) as Hfm.
    constructor; [ | constructor; [ | constructor ]]; cbn [frac]; lra.
  - apply (leaf_percent (safeC_of c)). apply classify_leaf.
Qed.

(** The ranges of what [predictProperties] returns, for a carbon content
    in [[0, 6.67]] and an array of percentages. *)
Lemma predictProperties_ranges (c T : R) (fs : list PhaseFraction)
      (q : bool) :
  0 <= c <= 6.67 ->
  Forall (fun f => 0 <= frac f <= 100) fs ->
  let p := predictProperties c T fs q in
  (0 <= yield p)%Z /\ (0 <= uts p)%Z /\ (0 <= hardness p)%Z
  /\ (1 <= elong p <= 100)%Z.
Proof.
  intros Hc Hall. cbv zeta. unfold predictProperties. cbv zeta.
  pose proof (share_of_unit "Ferrite" fs Hall) as Ha.
  pose proof (share_of_unit "Cementite" fs Hall) as Hb.
  destruct (gtb_spec T 1495); [cbn; lia | ].
  destruct q.
  - cbn [yield uts hardness elong].
    assert (He : 1 <= Rmax 1 (15 - c * 15) <= 100).
    { unfold Rmax. destruct (Rle_dec 1 (15 - c * 15)); lra. }
    repeat split;
      first [ apply (Math_round_lower 0) | apply (Math_round_lower 1)
            | apply (Math_round_upper 100) ]; lra.
  - destruct (gtb_spec T 727).
    + cbn [yield uts hardness elong].
      repeat split;
        first [ apply (Math_round_lower 0) | apply (Math_round_lower 1)
              | apply (Math_round_upper 100) ]; lra.
    + cbn [yield uts hardness elong].
      set (a := share_of "Ferrite" fs) in *.
      set (b := share_of "Cementite" fs) in *.
      assert (He : 1 <= Rmax 1 (a * 40 + b * 2) <= 100).
      { unfold Rmax. destruct (Rle_dec 1 (a * 40 + b * 2)); lra. }
      repeat split;
        first [ apply (Math_round_lower 0) | apply (Math_round_lower 1)
              | apply (Math_round_upper 100) ]; lra.
Qed.

(** X5.  Whatever the input, the predicted yield strength, tensile
    strength and hardness are not negative, and the elongation is between
    1 and 100. *)
Theorem properties_ranges (c T rate : R) :
  let p := properties (getState c T rate) in
  (0 <= yield p)%Z /\ (0 <= uts p)%Z /\ (0 <= hardness p)%Z
  /\ (1 <= elong p <= 100)%Z.
Proof.
  cbv zeta.
  pose proof (getState_percent c T rate) as Hall.
  unfold getState in *. cbv zeta in *. cbn [properties fractions] in *.
  apply predictProperties_ranges; [ | exact Hall].
  apply clamp_range. lra.
Qed.

(** X6.  Between 727 and 1495 degrees no state is quenched, and the
    properties are the fixed hot values: yield 50, tensile strength 120,
    hardness 40, elongation 45. *)
Theorem hot_properties (c T rate : R) (HT : 727 < T <= 1495) :
  isQuenched (getState c T rate) = false
  /\ properties (getState c T rate) =
     mkProperties "Austenitic / High Temp phases" "FCC Dominant"
                  50 120 40 45.
Proof.
  rewrite getState_unfold. cbv zeta. cbn [isQuenched properties].
  rewrite (safeT_of_id T) by lra.
  rewrite quench_test_hot by (try apply safeC_range; lra).
  split; [reflexivity | ].
  unfold predictProperties. cmp_lra.
  rewrite (Math_round_IZR 50), (Math_round_IZR 120),
          (Math_round_IZR 40), (Math_round_IZR 45).
  reflexivity.
Qed.

Lemma hot_properties_witness :
  isQuenched (getState 0.8 900 150) = false
  /\ properties (getState 0.8 900 150) =
     mkProperties "Austenitic / High Temp phases" "FCC Dominant"
                  50 120 40 45.
Proof. apply (hot_properties 0.8 900 150). lra. Defined.

(** The transformed fraction below the martensite start lies strictly
    between 0 and 1. *)
Lemma fm_of_strict (safeC safeT : R) :
  safeT < Ms safeC -> 0 < fm_of safeC safeT < 1.
Proof.
  intros H. unfold fm_of.
  set (u := - 0.011 * (Ms safeC - safeT)).
  assert (Hu : u < 0) by (unfold u; lra).
  pose proof (exp_pos u) as Hpos.
  pose proof (exp_increasing u 0 Hu) as Hlt. rewrite exp_0 in Hlt.
  rewrite clamp_id; lra.
Qed.

(** X7.  A quenched state lies below 539 degrees; it is the region
    ["martensite"] with its own label and crystal structure, it has a
    martensite start temperature, both of its fractions are strictly
    between 0 and 100, and its properties are at least yield 1000 and
    hardness 300, with an elongation of at most 15. *)
Theorem quenched_state (c T rate : R)
        (Hq : isQuenched (getState c T rate) = true) :
  let s := getState c T rate in
  Rmax 0 T < 539
  /\ regionId s = "martensite"
  /\ regionLabel s = "Martensitic (Quenched)"
  /\ msTemp s = Some (539 - 423 * Rmax 0 (Rmin 6.67 c))
  /\ Forall (fun f => 0 < frac f < 100) (fractions s)
  /\ crystal (properties s) = "Body-Centered Tetragonal (BCT)"
  /\ (1000 <= yield (properties s))%Z
  /\ (300 <= hardness (properties s))%Z
  /\ (1 <= elong (properties s) <= 15)%Z.
Proof.
  cbv zeta. revert Hq. rewrite getState_unfold. cbv zeta.
  cbn [isQuenched regionId regionLabel msTemp fractions properties].
  fold (safeC_of c). fold (safeT_of T).
  pose proof (safeC_range c) as Hc. pose proof (safeT_nonneg T) as HT.
  intros Hq. rewrite Hq.
  apply quench_test_true in Hq. destruct Hq as (Hr & Hc2 & Hms).
  pose proof (fm_of_strict _ _ Hms) as Hfm.
  unfold Ms in *.
  split; [lra | ]. split; [reflexivity | ]. split; [reflexivity | ].
  split; [cmp_lra; reflexivity | ].
  split.
  { constructor; [ | constructor; [ | constructor ]]; cbn [frac]; lra. }
  unfold predictProperties. cbv zeta.
  destruct (gtb_spec (safeT_of T) 1495); [exfalso; lra | ].
  cbn [crystal yield hardness elong].
  assert (He : 1 <= Rmax 1 (15 - safeC_of c * 15) <= 15).
  { unfold Rmax. destruct (Rle_dec 1 (15 - safeC_of c * 15)); lra. }
  split; [reflexivity | ].
  split; [apply (Math_round_lower 1000); lra | ].
  split; [apply (Math_round_lower 300); lra | ].
  split; [apply (Math_round_lower 1) | apply (Math_round_upper 15)]; lra.
Qed.

Lemma quenched_at_100 : isQuenched (getState 0.4 100 150) = true.
Proof.
  rewrite getState_unfold. cbv zeta. cbn [isQuenched].
  rewrite (safeC_of_id 0.4) by lra. rewrite (safeT_of_id 100) by lra.
  apply quench_test_true. unfold Ms. lra.
Qed.

Lemma quenched_state_witness :
  Rmax 0 100 < 539 /\ regionId (getState 0.4 100 150) = "martensite".
Proof.
  pose proof (quenched_state 0.4 100 150 quenched_at_100) as H.
  cbv zeta in H. split; apply H.
Defined.

Lemma fm_of_antitone (safeC t1 t2 : R) :
  t1 <= t2 -> fm_of safeC t2 <= fm_of safeC t1.
Proof.
  intros H. unfold fm_of.
  assert (He : exp (- 0.011 * (Ms safeC - t1))
               <= exp (- 0.011 * (Ms safeC - t2))).
  { destruct H as [Hlt | Heq].
    - left. apply exp_increasing. lra.
    - subst t2. lra. }
  apply Rle_max_compat_l. apply Rle_min_compat_l. lra.
Qed.

(** X8.  Cooling a quenched alloy further keeps it quenched and never
    lowers its martensite fraction. *)
Theorem martensite_grows_on_cooling (c T1 T2 rate : R)
        (HT : T1 <= T2)
        (Hq : isQuenched (getState c T2 rate) = true) :
  isQuenched (getState c T1 rate) = true
  /\ first_frac (fractions (getState c T2 rate))
     <= first_frac (fractions (getState c T1 rate)).
Proof.
  revert Hq. rewrite !getState_unfold. cbv zeta. cbn [isQuenched fractions].
  intros Hq. rewrite Hq.
  apply quench_test_true in Hq. destruct Hq as (Hr & Hc & Hms).
  assert (Hmono : safeT_of T1 <= safeT_of T2).
  { unfold safeT_of. apply Rle_max_compat_l. exact HT. }
  assert (Hq1 : quench_test rate (safeC_of c) (safeT_of T1)
                            (Ms (safeC_of c)) = true).
  { apply quench_test_true. repeat split; lra. }
  rewrite Hq1. split; [reflexivity | ].
  cbn [first_frac frac].
  pose proof (fm_of_antitone (safeC_of c) _ _ Hmono). lra.
Qed.

Lemma martensite_grows_on_cooling_witness :
  isQuenched (getState 0.4 20 150) = true
  /\ first_frac (fractions (getState 0.4 100 150))
     <= first_frac (fractions (getState 0.4 20 150)).
Proof.
  apply (martensite_grows_on_cooling 0.4 20 100 150);
    [lra | exact quenched_at_100].
Defined.

(** X9.  The cooling rate matters only through the threshold 50: two
    rates on the same side of it give the same state. *)
Theorem rate_threshold (c T r1 r2 : R)
        (Hside : r1 >= 50 <-> r2 >= 50) :
  getState c T r1 = getState c T r2.
Proof.
  unfold getState. cbv zeta.
  assert (Hg : (r1 >=? 50) = (r2 >=? 50)).
  { destruct (geb_spec r1 50); destruct (geb_spec r2 50);
      try reflexivity; tauto. }
  unfold quench_test. rewrite Hg. reflexivity.
Qed.

Lemma rate_threshold_witness : getState 0.4 100 2 = getState 0.4 100 10.
Proof. apply rate_threshold. split; intros H; lra. Defined.

(** X10.  Clamping is idempotent: [getState] on the clamped carbon and
    temperature is [getState] on the raw input, so carbon at or below 0
    acts as 0, carbon at or above 6.67 as 6.67 and any negative
    temperature as 0. *)
Theorem clamped_input (c T rate : R) :
  getState (Rmax 0 (Rmin 6.67 c)) (Rmax 0 T) rate = getState c T rate.
Proof.
  unfold getState. cbv zeta.
  assert (Hc : Rmax 0 (Rmin 6.67 (Rmax 0 (Rmin 6.67 c)))
               = Rmax 0 (Rmin 6.67 c)).
  { apply clamp_id. apply clamp_range. lra. }
  assert (HT : Rmax 0 (Rmax 0 T) = Rmax 0 T).
  { apply Rmax_r_eq. apply Rmax_l. }
  rewrite Hc, HT. reflexivity.
Qed.

(** X11.  Below A1, for a slowly cooled alloy above the ferrite
    solubility, the region label and the microstructure draw the
    eutectoid band differently: the label is the eutectoid one for
    carbon in [[0.76, 0.78)], the microstructure is pearlite for carbon in
    [(0.74, 0.78)]. *)
Theorem eutectoid_band (c T rate : R)
        (Hc : 0.022 < c <= 6.67) (HT : T <= 727) (Hrate : rate < 50) :
  let s := getState c T rate in
  regionId s = "alpha_Fe3C"
  /\ (regionLabel s = "Eutectoid (Pearlite)" <-> 0.76 <= c < 0.78)
  /\ (micro (properties s) = "100% Pearlite (Lamellar)"
      <-> 0.74 < c < 0.78).
Proof.
  cbv zeta. rewrite getState_unfold. cbv zeta.
  cbn [regionId regionLabel properties].
  rewrite (safeC_of_id c) by lra.
  pose proof (safeT_nonneg T) as HT0.
  assert (HT727 : safeT_of T <= 727).
  { unfold safeT_of, Rmax. destruct (Rle_dec 0 T); lra. }
  assert (Hq : quench_test rate c (safeT_of T) (Ms c) = false).
  { unfold quench_test. cmp_lra. reflexivity. }
  rewrite Hq.
  pose proof (c_alpha_range (safeT_of T)) as Ha.
  unfold classify. cbv zeta. cmp_lra.
  unfold lever. cbn [loc_regionId loc_fractions].
  split; [reflexivity | ].
  unfold label_of, predictProperties. cbv zeta.
  cbn [String.eqb Ascii.eqb Bool.eqb].
  destruct (gtb_spec (safeT_of T) 1495); [exfalso; lra | ].
  destruct (gtb_spec (safeT_of T) 727); [exfalso; lra | ].
  cbn [micro].
  split.
  - split_tests; bool_hyps;
      repeat match goal with
             | H : context [Rabs ?z] |- _ =>
                 revert H; unfold Rabs; destruct (Rcase_abs z); intros H
             end;
      (split; [intros Heq; first [discriminate Heq | lra]
              | intros Hband; first [reflexivity | exfalso; lra]]).
  - split_tests; bool_hyps;
      repeat match goal with
             | H : context [Rabs ?z] |- _ =>
                 revert H; unfold Rabs; destruct (Rcase_abs z); intros H
             end;
      (split; [intros Heq; first [discriminate Heq | lra]
              | intros Hband; first [reflexivity | exfalso; lra]]).
Qed.

Lemma eutectoid_band_witness :
  regionLabel (getState 0.77 600 0) = "Eutectoid (Pearlite)"
  <-> 0.76 <= 0.77 < 0.78.
Proof. apply (eutectoid_band 0.77 600 0); lra. Defined.

(** ** Further properties of the boundary curves *)

(** [Math.pow] grows with its base. *)
Lemma Math_pow_monotone (a b e : R) :
  0 <= a <= b -> 0 <= e -> Math_pow a e <= Math_pow b e.
Proof.
  intros [[Ha | Ha] Hab] He.
  - rewrite !Math_pow_Rpower by lra.
    apply Rle_Rpower_l; [assumption | lra].
  - subst a. rewrite Math_pow_0.
    destruct Hab as [Hb | Hb].
    + left. apply Math_pow_pos. assumption.
    + subst b. rewrite Math_pow_0. lra.
Qed.

(** X12.  The boundaries keep their left-to-right order at every
    temperature: A3 is never to the right of Acm, the liquidus is never to
    the right of the liquid/cementite line, and the solidus stays at least
    0.36 wt% C to the left of the liquidus, so the austenite + liquid tie
    line is never degenerate. *)
Theorem boundary_order (T : R) :
  c_a3 T <= c_acm T
  /\ c_liquidus T <= c_l_fe3c T
  /\ c_solidus T + 0.36 <= c_liquidus T
  /\ EPS <= c_liquidus T - c_solidus T.
Proof.
  pose proof (c_a3_range T). pose proof (c_acm_range T).
  pose proof (c_liquidus_range T).
  assert (Hlf : 4.3 <= c_l_fe3c T).
  { unfold c_l_fe3c. cmp_cases; lra. }
  assert (Hgap : c_solidus T + 0.36 <= c_liquidus T).
  { unfold c_solidus, c_liquidus. cmp_cases; try lra.
    assert (Hp : 0 <= Math_pow ((1495 - T) / 348) 0.85 <= 1)
      by (apply Math_pow_unit; [split; lra | lra]).
    lra. }
  unfold EPS. repeat split; lra.
Qed.

(** X13.  As the temperature rises, the solidus and the liquidus never
    move to higher carbon, and Acm and the liquid/cementite line never
    move to lower carbon. *)
Theorem curves_monotone (T1 T2 : R) (HT : T1 <= T2) :
  c_solidus T2 <= c_solidus T1
  /\ c_liquidus T2 <= c_liquidus T1
  /\ c_acm T1 <= c_acm T2
  /\ c_l_fe3c T1 <= c_l_fe3c T2.
Proof.
  pose proof (c_solidus_range T1). pose proof (c_solidus_range T2).
  pose proof (c_liquidus_range T1). pose proof (c_liquidus_range T2).
  pose proof (c_acm_range T1). pose proof (c_acm_range T2).
  split; [ | split; [ | split ]].
  - revert H H0. unfold c_solidus. cmp_cases; intros; try lra.
    assert (Hm : Math_pow ((1495 - T2) / 348) 0.85
                 <= Math_pow ((1495 - T1) / 348) 0.85)
      by (apply Math_pow_monotone; [split; lra | lra]).
    lra.
  - revert H1 H2. unfold c_liquidus. cmp_cases; intros; try lra.
    assert (Hm : Math_pow ((1495 - T2) / 348) 0.85
                 <= Math_pow ((1495 - T1) / 348) 0.85)
      by (apply Math_pow_monotone; [split; lra | lra]).
    lra.
  - revert H3 H4. unfold c_acm. cmp_cases; intros; try lra.
    assert (Hm : Math_pow ((T1 - 727) / 420) 1.4
                 <= Math_pow ((T2 - 727) / 420) 1.4)
      by (apply Math_pow_monotone; [split; lra | lra]).
    lra.
  - unfold c_l_fe3c. cmp_cases; lra.
Qed.

Lemma curves_monotone_witness :
  c_solidus 1400 <= c_solidus 1200
  /\ c_liquidus 1400 <= c_liquidus 1200
  /\ c_acm 1200 <= c_acm 1400
  /\ c_l_fe3c 1200 <= c_l_fe3c 1400.
Proof. apply (curves_monotone 1200 1400). lra. Defined.

(** ** Properties of the application code *)

Module AppFacts.

Import App.

Lemma cooling_rates (m : string) :
  cooling m = true ->
  (m = "anneal" /\ rates m = Some 2)
  \/ (m = "normalize" /\ rates m = Some 10)
  \/ (m = "quench" /\ rates m = Some 150).
Proof.
  unfold cooling, rates. intros H.
  destruct (String.eqb_spec m "anneal") as [Ea | Ha];
    [left; split; [exact Ea | reflexivity] | ].
  destruct (String.eqb_spec m "normalize") as [En | Hn];
    [right; left; split; [exact En | reflexivity] | ].
  destruct (String.eqb_spec m "quench") as [Eq | Hq];
    [right; right; split; [exact Eq | reflexivity] | ].
  discriminate H.
Qed.

Lemma rates_cooling (m : string) (r : R) :
  rates m = Some r ->
  (m = "anneal" /\ r = 2) \/ (m = "normalize" /\ r = 10)
  \/ (m = "quench" /\ r = 150).
Proof.
  unfold rates. intros H.
  destruct (String.eqb_spec m "anneal") as [Ea | Ha];
    [left; split; [exact Ea | congruence] | ].
  destruct (String.eqb_spec m "normalize") as [En | Hn];
    [right; left; split; [exact En | congruence] | ].
  destruct (String.eqb_spec m "quench") as [Eq | Hq];
    [right; right; split; [exact Eq | congruence] | ].
  discriminate H.
Qed.

(** X14.  Of the three simulated processes only the quench reaches the
    quench threshold of the engine: with the cooling rate that the
    simulation sets for a mode, the state is quenched exactly when the
    mode is ["quench"], the clamped carbon is below 2.0 and the clamped
    temperature is below the martensite start. *)
Theorem only_quench_mode_quenches (m : string) (r c T : R)
        (Hm : rates m = Some r) :
  isQuenched (getState c T r) = true <->
  m = "quench" /\ Rmax 0 (Rmin 6.67 c) < 2.0
  /\ Rmax 0 T < 539 - 423 * Rmax 0 (Rmin 6.67 c).
Proof.
  rewrite getState_unfold. cbv zeta. cbn [isQuenched].
  unfold safeC_of, safeT_of, Ms.
  destruct (rates_cooling m r Hm) as [[-> ->] | [[-> ->] | [-> ->]]].
  - split.
    + intros H. apply quench_test_true in H. lra.
    + intros [H _]. discriminate H.
  - split.
    + intros H. apply quench_test_true in H. lra.
    + intros [H _]. discriminate H.
  - split.
    + intros H. apply quench_test_true in H.
      split; [reflexivity | lra].
    + intros [_ H]. apply quench_test_true. lra.
Qed.

Lemma only_quench_mode_quenches_witness :
  isQuenched (getState 0.4 100 150) = true <->
  "quench" = "quench" /\ Rmax 0 (Rmin 6.67 0.4) < 2.0
  /\ Rmax 0 100 < 539 - 423 * Rmax 0 (Rmin 6.67 0.4).
Proof. apply (only_quench_mode_quenches "quench" 150 0.4 100). reflexivity. Defined.

(** X15.  The weldability rating and the solver agree on cast iron: for a
    slowly cooled alloy at or below A1, the rating is ["Unweldable"]
    exactly when the region label is ["Cast Iron (White)"]. *)
Theorem unweldable_is_cast_iron (c T rate : R)
        (Hc : 0 <= c <= 6.67) (HT : T <= 727) (Hrate : rate < 50) :
  rating (getWeldability c) = "Unweldable" <->
  regionLabel (getState c T rate) = "Cast Iron (White)".
Proof.
  rewrite getState_unfold. cbv zeta. cbn [regionLabel].
  rewrite (safeC_of_id c) by lra.
  pose proof (safeT_nonneg T) as HT0.
  assert (HT727 : safeT_of T <= 727).
  { unfold safeT_of, Rmax. destruct (Rle_dec 0 T); lra. }
  assert (Hq : quench_test rate c (safeT_of T) (Ms c) = false).
  { unfold quench_test. cmp_lra. reflexivity. }
  rewrite Hq.
  pose proof (c_alpha_range (safeT_of T)) as Ha.
  unfold getWeldability, classify. cbv zeta. cmp_lra.
  destruct (leb_spec c (c_alpha (safeT_of T))) as [Hle | Hgt].
  - unfold single, label_of. cbn [loc_regionId String.eqb Ascii.eqb Bool.eqb].
    split_tests; bool_hyps; cbn [rating];
      (split; intros Heq; first [discriminate Heq | exfalso; lra]).
  - unfold lever, label_of. cbn [loc_regionId String.eqb Ascii.eqb Bool.eqb].
    split_tests; bool_hyps; cbn [rating];
      repeat match goal with
             | H : context [Rabs ?z] |- _ =>
                 revert H; unfold Rabs; destruct (Rcase_abs z); intros H
             end;
      (split; intros Heq;
       first [discriminate Heq | reflexivity | exfalso; lra]).
Qed.

Lemma unweldable_is_cast_iron_witness :
  rating (getWeldability 3) = "Unweldable" <->
  regionLabel (getState 3 20 0) = "Cast Iron (White)".
Proof. apply (unweldable_is_cast_iron 3 20 0); lra. Defined.

Lemma maxC_pos (zoom : bool) : 0 < maxC zoom <= 6.67.
Proof. unfold maxC. destruct zoom; lra. Qed.

Lemma coords_facts (zoom : bool) (carbon0 temp0 : R)
        (rect : DOMRect) (e : Event)
        (Hw : 0 < rect_width rect) (Hh : 0 < rect_height rect) :
  (getDiagramCoordsFromEvent zoom carbon0 temp0 (Some rect) e = None
   <-> touches e = Some [])
  /\ (forall p,
         getDiagramCoordsFromEvent zoom carbon0 temp0 (Some rect) e = Some p ->
         0 <= coord_c p <= maxC zoom /\ 0 <= coord_t p <= 1600).
Proof.
  pose proof (maxC_pos zoom) as Hm.
  unfold getDiagramCoordsFromEvent. cbv zeta.
  destruct (touches e) as [[ | q ts] | ]; cbn [nth_error].
  - split; [split; intros; reflexivity | intros p H; discriminate H].
  - split; [split; intros H; discriminate H | ].
    intros p H. injection H as <-. cbn [coord_c coord_t].
    split; apply clamp_range; lra.
  - split; [split; intros H; discriminate H | ].
    intros p H. injection H as <-. cbn [coord_c coord_t].
    split; apply clamp_range; lra.
Qed.

(** X16.  With the diagram mounted and of positive size,
    [getDiagramCoordsFromEvent] throws exactly on an empty [touches]
    array, and every position it returns lies on the axes: carbon in
    [[0, maxC]], temperature in [[0, 1600]]. *)
Theorem coords_in_range (zoom : bool) (carbon0 temp0 : R)
        (rect : DOMRect) (e : Event)
        (Hw : 0 < rect_width rect) (Hh : 0 < rect_height rect) :
  (getDiagramCoordsFromEvent zoom carbon0 temp0 (Some rect) e = None
   <-> touches e = Some [])
  /\ (forall p,
         getDiagramCoordsFromEvent zoom carbon0 temp0 (Some rect) e = Some p ->
         0 <= coord_c p <= maxC zoom /\ 0 <= coord_t p <= 1600).
Proof. exact (coords_facts zoom carbon0 temp0 rect e Hw Hh). Qed.

Lemma coords_in_range_witness :
  getDiagramCoordsFromEvent false 0.4 1600
    (Some (mkDOMRect 0 0 850 650)) (mkEvent (Some []) (mkPoint 100 100))
  = None
  <-> touches (mkEvent (Some []) (mkPoint 100 100)) = Some [].
Proof.
  apply (coords_in_range false 0.4 1600 (mkDOMRect 0 0 850 650)
                         (mkEvent (Some []) (mkPoint 100 100)));
    cbn [rect_width rect_height]; lra.
Defined.

(** X17.  The screen mapping and its inverse agree: a pointer event at
    the place where [mapX] and [mapY] draw the position [(c, t)], on a
    diagram displayed at any position and positive size, is read back as
    [(c, t)]. *)
Theorem click_recovers_position (zoom : bool) (carbon0 temp0 : R)
        (rect : DOMRect) (c t : R)
        (Hw : 0 < rect_width rect) (Hh : 0 < rect_height rect)
        (Hc : 0 <= c <= maxC zoom) (Ht : 0 <= t <= 1600) :
  let p := mkPoint
             (rect_left rect + mapX zoom c * (rect_width rect / svgW))
             (rect_top rect + mapY t * (rect_height rect / svgH)) in
  getDiagramCoordsFromEvent zoom carbon0 temp0 (Some rect) (mkEvent None p)
  = Some (mkCoords c t).
Proof.
  pose proof (maxC_pos zoom) as Hm.
  cbv zeta. unfold getDiagramCoordsFromEvent. cbv zeta.
  cbn [touches pointer clientX clientY].
  unfold mapX, mapY. rewrite (Rmin_l_eq c (maxC zoom)) by lra.
  unfold svgW, svgH, innerW, innerH, margin_left, margin_right,
    margin_top, margin_bottom, svgW, svgH.
  set (w := rect_width rect) in *. set (h := rect_height rect) in *.
  set (m := maxC zoom) in *.
  replace (((rect_left rect + (70 + c / m * (850 - 70 - 60)) * (w / 850)
             - rect_left rect) * (850 / w) - 70) / (850 - 70 - 60) * m)
    with c by (field; lra).
  replace (1600 - ((rect_top rect
                    + (40 + (650 - 40 - 80) - t / 1600 * (650 - 40 - 80))
                      * (h / 650) - rect_top rect) * (650 / h) - 40)
                   / (650 - 40 - 80) * 1600)
    with t by (field; lra).
  rewrite (clamp_id m c) by lra. rewrite (clamp_id 1600 t) by lra.
  reflexivity.
Qed.

Lemma click_recovers_position_witness :
  getDiagramCoordsFromEvent false 0.4 1600 (Some (mkDOMRect 10 20 425 325))
    (mkEvent None
       (mkPoint (10 + mapX false 0.76 * (425 / svgW))
                (20 + mapY 727 * (325 / svgH))))
  = Some (mkCoords 0.76 727).
Proof.
  apply (click_recovers_position false 0.4 1600 (mkDOMRect 10 20 425 325)
                                 0.76 727);
    cbn [rect_width rect_height maxC]; lra.
Defined.



(** X19.  In zoomed mode the carbon content never exceeds the zoomed
    axis: if the state satisfies "zoomed implies carbon at most 2.5", so
    does the state after a stepper, the zoom toggle, a preset, a typed
    carbon value, a tick of the simulation, or a pointer event on a
    diagram of positive size. *)
Theorem zoom_invariant (st : AppState) (dir v pc : R)
        (svg : option DOMRect) (e : Event)
        (Hsvg : match svg with
                | Some rect => 0 < rect_width rect /\ 0 < rect_height rect
                | None => True
                end)
        (Hinv : zoomSteel st = true -> carbon st <= 2.5) :
  Forall (fun st' => zoomSteel st' = true -> carbon st' <= 2.5)
         [ stepCarbon dir st; stepTemp dir st; toggleZoom st;
           selectPreset pc st; typeCarbon v st; tick st ]
  /\ (forall st',
         handlePointerDown svg e st = Some st'
         \/ handlePointerMove svg e st = Some st' ->
         zoomSteel st' = true -> carbon st' <= 2.5).
Proof.
  split.
  - repeat (apply Forall_cons; [ | ]); [ | | | | | | apply Forall_nil].
    + unfold stepCarbon. cbn [zoomSteel carbon]. intros Hz. rewrite Hz.
      apply clamp_range. lra.
    + unfold stepTemp. cbn [zoomSteel carbon]. exact Hinv.
    + unfold toggleZoom. cbv zeta. cbn [zoomSteel carbon]. intros Hz.
      rewrite Hz. cbn [andb].
      destruct (gtb_spec (carbon st) 2.5); lra.
    + unfold selectPreset. cbn [zoomSteel carbon].
      destruct (gtb_spec pc 2.5); cbn [andb].
      * destruct (zoomSteel st); intros Hz; discriminate Hz.
      * intros _. lra.
    + unfold typeCarbon. cbn [zoomSteel carbon].
      destruct (gtb_spec v 2.5); cbn [andb].
      * destruct (zoomSteel st); intros Hz; discriminate Hz.
      * intros _. lra.
    + unfold tick. destruct (rates (mode st)); [ | exact Hinv].
      cbv zeta. destruct (leb_spec (temp st) 20); cbn [zoomSteel carbon];
        exact Hinv.
  - intros st' Hev Hz.
    assert (Hcoords : forall p,
               getDiagramCoordsFromEvent (zoomSteel st) (carbon st) (temp st)
                                         svg e = Some p ->
               zoomSteel st = true -> coord_c p <= 2.5).
    { intros p Hp Hzoom. destruct svg as [rect | ].
      - destruct Hsvg as [Hw Hh].
        destruct (coords_facts (zoomSteel st) (carbon st) (temp st)
                                  rect e Hw Hh) as [_ Hrange].
        specialize (Hrange p Hp). rewrite Hzoom in Hrange.
        unfold maxC in Hrange. lra.
      - cbn in Hp. injection Hp as <-. cbn [coord_c]. apply Hinv, Hzoom. }
    destruct Hev as [Hdown | Hmove].
    + unfold handlePointerDown in Hdown.
      destruct (getDiagramCoordsFromEvent _ _ _ _ _) as [p | ] eqn:Hp;
        [ | discriminate Hdown].
      injection Hdown as <-. cbn [zoomSteel carbon] in *.
      apply (Hcoords p); [reflexivity | exact Hz].
    + unfold handlePointerMove in Hmove.
      destruct (isDragging st); cbn [negb] in Hmove.
      * destruct (getDiagramCoordsFromEvent _ _ _ _ _) as [p | ] eqn:Hp;
          [ | discriminate Hmove].
        injection Hmove as <-. cbn [zoomSteel carbon] in *.
        apply (Hcoords p); [reflexivity | exact Hz].
      * injection Hmove as <-. apply Hinv, Hz.
Qed.

Lemma zoom_invariant_witness :
  let st := mkAppState 2.0 800 "manual" 0 true false [] in
  Forall (fun st' => zoomSteel st' = true -> carbon st' <= 2.5)
         [ stepCarbon 1 st; stepTemp 1 st; toggleZoom st;
           selectPreset 3.00 st; typeCarbon 4 st; tick st ].
Proof.
  apply (zoom_invariant (mkAppState 2.0 800 "manual" 0 true false [])
                        1 4 3.00 None (mkEvent None (mkPoint 0 0)) I).
  cbn [zoomSteel carbon]. intros _. lra.
Defined.

Lemma slice_last_length {A : Type} (n : nat) (xs : list A) :
  (length (slice_last n xs) <= n)%nat.
Proof. unfold slice_last. rewrite length_skipn. lia. Qed.

(** A tick at or below 20 degrees ends the simulation. *)
Lemma tick_stops (st : AppState) :
  cooling (mode st) = true -> temp st <= 20 ->
  tick st = mkAppState (carbon st) 20 "manual" 0 (zoomSteel st)
                       (isDragging st) (historyTrail st).
Proof.
  intros Hm Ht. unfold tick.
  destruct (cooling_rates _ Hm) as [[_ ->] | [[_ ->] | [_ ->]]];
    cbv zeta; cmp_lra; reflexivity.
Qed.

Lemma tick_step (st : AppState)
        (Hm : cooling (mode st) = true) (Ht : 20 < temp st) :
  mode (tick st) = mode st
  /\ carbon (tick st) = carbon st
  /\ temp st - 150 <= temp (tick st) <= temp st - 1
  /\ last (historyTrail (tick st)) (mkCoords 0 0)
     = mkCoords (carbon st) (temp (tick st)).
Proof.
  unfold tick.
  destruct (cooling_rates _ Hm) as [[Hmode ->] | [[Hmode ->] | [Hmode ->]]];
    cbv zeta; rewrite Hmode;
    cbn [String.eqb Ascii.eqb Bool.eqb orb andb];
    (destruct (leb_spec (temp st) 20); [exfalso; lra | ]);
    split_tests; cbn [mode carbon temp historyTrail];
    rewrite last_last;
    (split; [reflexivity | split; [reflexivity | ]]);
    (split; [ | reflexivity]);
    unfold Rmax; try destruct (Rle_dec _ _); lra.
Qed.

(** X20.  While the temperature is above 20 degrees, a tick of a cooling
    mode lowers it by at least 1 and at most 150 degrees, keeps the mode
    and the carbon content, and records the new point as the last entry
    of the history trail. *)
Theorem tick_cools (st : AppState)
        (Hm : cooling (mode st) = true) (Ht : 20 < temp st) :
  mode (tick st) = mode st
  /\ carbon (tick st) = carbon st
  /\ temp st - 150 <= temp (tick st) <= temp st - 1
  /\ last (historyTrail (tick st)) (mkCoords 0 0)
     = mkCoords (carbon st) (temp (tick st)).
Proof. exact (tick_step st Hm Ht). Qed.

Lemma tick_cools_witness :
  let st := mkAppState 0.4 720 "anneal" 2 false false [] in
  temp st - 150 <= temp (tick st) <= temp st - 1.
Proof.
  apply (tick_cools (mkAppState 0.4 720 "anneal" 2 false false [])).
  - reflexivity.
  - cbn [temp]. lra.
Defined.

Lemma nat_above (r : R) : exists n : nat, r <= INR n.
Proof.
  destruct (Rle_dec r 0) as [Hle | Hgt].
  - exists 0%nat. simpl. exact Hle.
  - destruct (archimed r) as [Hup _].
    assert (Hpos : (0 <= up r)%Z).
    { apply le_IZR. lra. }
    exists (Z.to_nat (up r)).
    rewrite INR_IZR_INZ, Z2Nat.id by exact Hpos. lra.
Qed.

Lemma run_ends_within (N : nat) (st : AppState) :
  cooling (mode st) = true -> temp st <= 20 + INR N ->
  exists n : nat,
    (n <= S N)%nat
    /\ run n st = mkAppState (carbon st) 20 "manual" 0 (zoomSteel st)
                             (isDragging st) (historyTrail (run n st)).
Proof.
  revert st. induction N as [ | N IH]; intros st Hm Ht.
  - exists 1%nat. split; [lia | ].
    cbn [run]. rewrite Hm. simpl in Ht.
    rewrite tick_stops by (try exact Hm; lra). reflexivity.
  - destruct (Rle_dec (temp st) 20) as [Hle | Hgt].
    + exists 1%nat. split; [lia | ].
      cbn [run]. rewrite Hm.
      rewrite tick_stops by (try exact Hm; lra). reflexivity.
    + assert (H20 : 20 < temp st) by lra.
      destruct (tick_step st Hm H20) as (Hmode & Hcarbon & Htemp & _).
      destruct (IH (tick st)) as (n & Hn & Hrun).
      * rewrite Hmode. exact Hm.
      * rewrite S_INR in Ht. lra.
      * exists (S n). split; [lia | ].
        cbn [run]. rewrite Hm. rewrite Hrun at 1.
        rewrite Hcarbon.
        assert (Hz : zoomSteel (tick st) = zoomSteel st
                     /\ isDragging (tick st) = isDragging st).
        { unfold tick. destruct (rates (mode st)); [ | split; reflexivity].
          cbv zeta. destruct (leb_spec (temp st) 20); split; reflexivity. }
        destruct Hz as [-> ->]. reflexivity.
Qed.

(** X21.  Every cooling simulation ends: from any state in a cooling
    mode, after finitely many ticks the mode is back to ["manual"] with
    the temperature at 20 degrees and the cooling rate at 0, the carbon
    content untouched; and further ticks change nothing. *)
Theorem cooling_run_ends (st : AppState) (Hm : cooling (mode st) = true) :
  exists n : nat,
    mode (run n st) = "manual"
    /\ temp (run n st) = 20
    /\ coolingRate (run n st) = 0
    /\ carbon (run n st) = carbon st
    /\ forall k : nat, run k (run n st) = run n st.
Proof.
  destruct (nat_above (temp st - 20)) as [N HN].
  destruct (run_ends_within N st Hm ltac:(lra)) as (n & _ & Hrun).
  exists n. rewrite Hrun. cbn [mode temp coolingRate carbon].
  repeat split. intros k. destruct k; reflexivity.
Qed.

Lemma cooling_run_ends_witness :
  exists n : nat,
    mode (run n (mkAppState 0.4 900 "quench" 150 false false [])) = "manual"
    /\ temp (run n (mkAppState 0.4 900 "quench" 150 false false [])) = 20.
Proof.
  destruct (cooling_run_ends (mkAppState 0.4 900 "quench" 150 false false [])
                             eq_refl) as (n & Hmode & Htemp & _).
  exists n. split; assumption.
Defined.

(** X22.  The history trail never grows beyond 31 points: a tick leaves
    at most 31, and a whole run keeps the trail within 31 or within its
    length at the start. *)
Theorem history_bounded (n : nat) (st : AppState) :
  (length (historyTrail (run n st))
   <= Nat.max (length (historyTrail st)) 31)%nat
  /\ (length (historyTrail (tick st))
      <= Nat.max (length (historyTrail st)) 31)%nat.
Proof.
  assert (Htick : forall s,
             (length (historyTrail (tick s))
              <= Nat.max (length (historyTrail s)) 31)%nat).
  { intros s. unfold tick. destruct (rates (mode s)); [ | lia].
    cbv zeta. destruct (leb_spec (temp s) 20); cbn [historyTrail]; [lia | ].
    rewrite length_app. cbn [length].
    pose proof (slice_last_length 30 (historyTrail s)). lia. }
  split; [ | apply Htick].
  revert st. induction n as [ | n IH]; intros st; cbn [run]; [lia | ].
  destruct (cooling (mode st)); [ | lia].
  specialize (IH (tick st)). specialize (Htick st). lia.
Qed.

End AppFacts.

(** ** Further properties of the region tree *)

Lemma classify_axis_leaf (safeC safeT : R) :
  0 <= safeC <= 6.67 -> axis_leaf safeC (classify safeC safeT).
Proof.
  intros Hc.
  pose proof (c_delta_solidus_range safeT).
  pose proof (c_delta_liquidus_range safeT).
  pose proof (c_solidus_range safeT). pose proof (c_liquidus_range safeT).
  pose proof (c_alpha_range safeT). pose proof (c_a3_range safeT).
  pose proof (c_acm_range safeT).
  assert (Hlf : 4.3 <= c_l_fe3c safeT) by (unfold c_l_fe3c; cmp_cases; lra).
  unfold classify. cbv zeta. split_tests;
    first [ apply axis_single | apply axis_lever; bool_hyps; lra ].
Qed.

(** X23.  Every carbon content that the solver reports for a phase lies
    on the carbon axis [[0, 6.67]], although the liquid/cementite line
    itself leaves it above 1250 degrees. *)
Theorem positions_on_axis (c T rate : R) :
  Forall (fun f => 0 <= pos f <= 6.67) (fractions (getState c T rate)).
Proof.
  rewrite getState_unfold. cbv zeta. cbn [fractions].
  pose proof (safeC_range c) as Hc.
  destruct (quench_test _ _ _ _).
  - constructor; [ | constructor; [ | constructor ]]; cbn [pos]; exact Hc.
  - destruct (classify_axis_leaf (safeC_of c) (safeT_of T) Hc)
      as [id nm | id n1 n2 c1 c2 H1 H2].
    + unfold single. cbn [loc_fractions].
      constructor; [cbn [pos]; exact Hc | constructor].
    + unfold lever. cbn [loc_fractions]. cmp_cases.
      * constructor; [cbn [pos]; lra | constructor].
      * constructor; [ | constructor; [ | constructor ]]; cbn [pos]; lra.
Qed.

(** X24.  Which regions each temperature band can show: a state that is
    not quenched has a region of its band; in particular liquid +
    cementite occurs only between 1147 and 1250 degrees. *)
Theorem region_of_band (c T rate : R)
        (Hq : isQuenched (getState c T rate) = false) :
  In (regionId (getState c T rate)) (band_regions (Rmax 0 T)).
Proof.
  revert Hq. rewrite getState_unfold. cbv zeta. cbn [isQuenched regionId].
  intros ->. fold (safeT_of T).
  pose proof (safeC_range c) as Hc.
  pose proof (c_liquidus_range (safeT_of T)).
  pose proof (c_solidus_range (safeT_of T)).
  unfold classify, band_regions, c_l_fe3c. cbv zeta.
  split_tests; bool_hyps; try (exfalso; lra);
    unfold single, lever; cbn [loc_regionId In]; tauto.
Qed.

Lemma slow_state_not_quenched (c T : R) :
  isQuenched (getState c T 0) = false.
Proof.
  rewrite getState_unfold. cbv zeta. cbn [isQuenched]. apply slow_cooling.
Qed.

Lemma region_of_band_witness :
  In (regionId (getState 5 1300 0)) (band_regions (Rmax 0 1300)).
Proof. apply region_of_band. apply slow_state_not_quenched. Defined.

(** ** Further properties of the predicted properties *)

Lemma Math_round_nearest (n : Z) (x : R) :
  IZR n - / 2 <= x < IZR n + / 2 -> Math_round x = n.
Proof.
  intros H. unfold Math_round, Int_part.
  assert (Hup : (n + 1)%Z = up (x + / 2)).
  { apply tech_up; rewrite plus_IZR; lra. }
  rewrite <- Hup. lia.
Qed.

(** X25.  Carbon-free iron at or below A1, cooled slowly, is ferrite
    with the ferrite coefficients as properties: yield 150, hardness 80,
    elongation 40, and a tensile strength of 243 (242.5 rounded up). *)
Theorem pure_iron_properties (c T rate : R)
        (Hc : c <= 0) (HT : T <= 727) (Hrate : rate < 50) :
  properties (getState c T rate) =
  mkProperties "Equiaxed Ferrite" "BCC + Orthorhombic" 150 243 80 40.
Proof.
  pose proof (carbon_free_fractions c T rate Hc Hrate) as Hfs.
  revert Hfs. rewrite getState_unfold. cbv zeta. cbn [fractions properties].
  assert (HsC : safeC_of c = 0).
  { unfold safeC_of. rewrite (Rmin_r_eq 6.67 c) by lra.
    apply Rmax_l_eq. exact Hc. }
  rewrite HsC. fold (safeT_of T).
  assert (Hq : quench_test rate 0 (safeT_of T) (Ms 0) = false).
  { unfold quench_test. cmp_lra. reflexivity. }
  rewrite Hq. intros ->.
  pose proof (safeT_nonneg T) as HT0.
  assert (HT727 : safeT_of T <= 727).
  { unfold safeT_of, Rmax. destruct (Rle_dec 0 T); lra. }
  unfold iron_phase. cmp_lra.
  unfold predictProperties. cbv zeta. cmp_lra.
  assert (Ha : share_of "Ferrite" [mkPhaseFraction "Ferrite (α)" 100 0] = 1).
  { unfold share_of, JS.find. cbn [List.find name].
    replace (includes "Ferrite (α)" "Ferrite") with true by reflexivity.
    cbn [frac]. lra. }
  assert (Hb : share_of "Cementite" [mkPhaseFraction "Ferrite (α)" 100 0] = 0).
  { unfold share_of, JS.find. cbn [List.find name].
    replace (includes "Ferrite (α)" "Cementite") with false by reflexivity.
    reflexivity. }
  rewrite Ha, Hb.
  rewrite (Rmax_r_eq 1 (1 * 40 + 0 * 2)) by lra.
  rewrite (Math_round_nearest 150) by lra.
  rewrite (Math_round_nearest 243) by lra.
  rewrite (Math_round_nearest 80) by lra.
  rewrite (Math_round_nearest 40) by lra.
  reflexivity.
Qed.

Lemma pure_iron_properties_witness :
  properties (getState 0 500 10) =
  mkProperties "Equiaxed Ferrite" "BCC + Orthorhombic" 150 243 80 40.
Proof. apply (pure_iron_properties 0 500 10); lra. Defined.

Lemma safeC_of_monotone (c1 c2 : R) :
  c1 <= c2 -> safeC_of c1 <= safeC_of c2.
Proof.
  intros H. unfold safeC_of.
  apply Rle_max_compat_l. apply Rle_min_compat_l. exact H.
Qed.

(** X26.  Among quenched steels more carbon means harder and less
    ductile: if an alloy is quenched, so is every alloy of lower carbon at
    the same temperature and rate, with yield strength, tensile strength
    and hardness no higher and elongation no lower. *)
Theorem quenched_carbon_monotone (c1 c2 T rate : R)
        (Hc : c1 <= c2)
        (Hq : isQuenched (getState c2 T rate) = true) :
  let p1 := properties (getState c1 T rate) in
  let p2 := properties (getState c2 T rate) in
  isQuenched (getState c1 T rate) = true
  /\ (yield p1 <= yield p2)%Z
  /\ (uts p1 <= uts p2)%Z
  /\ (hardness p1 <= hardness p2)%Z
  /\ (elong p2 <= elong p1)%Z.
Proof.
  cbv zeta. revert Hq. rewrite !getState_unfold. cbv zeta.
  cbn [isQuenched properties].
  pose proof (safeC_of_monotone c1 c2 Hc) as Hmono.
  pose proof (safeC_range c1) as Hc1. pose proof (safeT_nonneg T) as HT.
  intros Hq. rewrite Hq.
  apply quench_test_true in Hq. destruct Hq as (Hr & Hc2 & Hms).
  unfold Ms in *.
  assert (Hq1 : quench_test rate (safeC_of c1) (safeT_of T)
                            (539 - 423 * safeC_of c1) = true).
  { apply quench_test_true. lra. }
  rewrite Hq1. split; [reflexivity | ].
  unfold predictProperties. cbv zeta.
  destruct (gtb_spec (safeT_of T) 1495); [exfalso; lra | ].
  cbn [yield uts hardness elong].
  repeat split; apply Math_round_monotone; try lra.
  apply Rle_max_compat_l. lra.
Qed.

Lemma quenched_carbon_monotone_witness :
  isQuenched (getState 0.2 100 150) = true
  /\ (hardness (properties (getState 0.2 100 150))
      <= hardness (properties (getState 0.4 100 150)))%Z.
Proof.
  pose proof (quenched_carbon_monotone 0.2 0.4 100 150 ltac:(lra)
                                       quenched_at_100) as H.
  cbv zeta in H. split; apply H.
Defined.

